(** * BuildWatchDog: a model of [buildwatchdog.py] and its specification

    The script polls AWS CodeBuild through the AWS CLI, keeps a log of
    status events, renders a dashboard and sends desktop notifications.
    Each Python function is embedded below as a Rocq function of the same
    name.  What the interpreter and the operating system contribute (the
    outcome of the subprocess, the wall clock, the sleeps, Ctrl+C) enters
    as explicit input; what the script emits (console lines, notifier
    calls, dashboard updates) is recorded in the state. *)

From Stdlib Require Import ZArith List String Ascii Bool Lia QArith.
From Stdlib Require Import DecimalString.
Import ListNotations.

Set Warnings "-register-all".
Local Open Scope string_scope.
Local Open Scope Z_scope.

(** [a == b] on [str] *)
Local Infix "==" := String.eqb (at level 70, no associativity).

(** ** Python strings

    [str] values are modelled by [string], read as ASCII text; the
    operations below are the ones the script uses: [s.lower()],
    [s.strip()], [needle in s], [s[:n]] and [str(n)] for an [int].
    On text outside ASCII Python also lowers other letters and strips
    other white space; that changes only the text quoted in the generic
    error line, not which of the phrases the text holds. *)

Module Py.

Definition lower_char (c : ascii) : ascii :=
  let n := nat_of_ascii c in
  if ((65 <=? n) && (n <=? 90))%nat then ascii_of_nat (n + 32) else c.

Fixpoint lower (s : string) : string :=
  match s with
  | EmptyString => EmptyString
  | String c s' => String (lower_char c) (lower s')
  end.

(** Characters [str.strip()] removes: tab, line feed, vertical tab, form
    feed, carriage return, the four separators 28..31 and the space. *)
Definition is_space (c : ascii) : bool :=
  let n := nat_of_ascii c in
  (((9 <=? n) && (n <=? 13)) || ((28 <=? n) && (n <=? 32)))%nat.

Fixpoint lstrip (s : string) : string :=
  match s with
  | EmptyString => EmptyString
  | String c s' => if is_space c then lstrip s' else s
  end.

Fixpoint rstrip (s : string) : string :=
  match s with
  | EmptyString => EmptyString
  | String c s' =>
      match rstrip s' with
      | EmptyString => if is_space c then EmptyString else String c EmptyString
      | t => String c t
      end
  end.

Definition strip (s : string) : string := rstrip (lstrip s).

(** [needle in hay] *)
Fixpoint contains (needle hay : string) : bool :=
  String.prefix needle hay ||
  match hay with
  | EmptyString => false
  | String _ hay' => contains needle hay'
  end.

(** [s[:n]] *)
Definition take (n : nat) (s : string) : string := substring 0 n s.

(** [str(n)] for an [int] *)
Definition str_int (n : Z) : string := NilZero.string_of_int (Z.to_int n).

(** [x in xs] for a list of strings *)
Definition mem (x : string) (xs : list string) : bool :=
  existsb (String.eqb x) xs.

End Py.

(** ** Values decoded by [json.loads]

    [None], [bool], [int], [float], [str], [list] and [dict].  A [dict] is
    kept as its items in insertion order; keys are looked up by equality. *)

Inductive json : Type :=
| JNull
| JBool (b : bool)
| JInt (n : Z)
| JFloat (x : Q)
| JStr (s : string)
| JArr (items : list json)
| JObj (items : list (string * json)).

Fixpoint assoc {A : Type} (k : string) (items : list (string * A)) : option A :=
  match items with
  | [] => None
  | (k', v) :: rest => if String.eqb k k' then Some v else assoc k rest
  end.

(** Truth value of a Python object, as tested by [if not x]. *)
Definition truthy (v : json) : bool :=
  match v with
  | JNull => false
  | JBool b => b
  | JInt n => negb (n =? 0)
  | JFloat x => negb (Qeq_bool x 0)
  | JStr s => negb (String.eqb s "")
  | JArr items => match items with [] => false | _ => true end
  | JObj items => match items with [] => false | _ => true end
  end.

Definition type_name (v : json) : string :=
  match v with
  | JNull => "NoneType"
  | JBool _ => "bool"
  | JInt _ => "int"
  | JFloat _ => "float"
  | JStr _ => "str"
  | JArr _ => "list"
  | JObj _ => "dict"
  end.

(** ** Exceptions

    The classes the handlers of [get_build_info] tell apart; every one is
    a subclass of [Exception].  [str_e] is [str(e)].  [MarkupError] is
    the error of the console library, raised by [console.print] for a
    line whose markup it cannot render.  A [KeyboardInterrupt] is no
    [Exception]: it passes through [get_build_info] and is a reply of
    its own in the loop below. *)

Inductive exn_class : Type :=
| TimeoutExpired
| JSONDecodeError
| FileNotFoundError
| AttributeError
| KeyError
| TypeError
| OtherException
| MarkupError.

Record exn : Type := mkExn { cls : exn_class; str_e : string }.

(** [data.get(key)]: only a [dict] has the method; a missing key gives [None]. *)
Definition py_get (data : json) (key : string) : exn + json :=
  match data with
  | JObj items =>
      inr (match assoc key items with Some v => v | None => JNull end)
  | _ =>
      inl (mkExn AttributeError
             ("'" ++ type_name data ++ "' object has no attribute 'get'"))
  end.

(** [v[0]] for a truthy [v]. *)
Definition py_first (v : json) : exn + json :=
  match v with
  | JArr (x :: _) => inr x
  | JArr [] => inl (mkExn OtherException "list index out of range")
  | JStr (String c _) => inr (JStr (String c EmptyString))
  | JStr EmptyString => inl (mkExn OtherException "string index out of range")
  | JObj _ => inl (mkExn KeyError "0")
  | _ => inl (mkExn TypeError
                ("'" ++ type_name v ++ "' object is not subscriptable"))
  end.

(** A decoded value as a Python return value: JSON [null] is [None]. *)
Definition as_optional (v : json) : option json :=
  match v with
  | JNull => None
  | _ => Some v
  end.

(** ** AWSCLIWrapper *)

(** What [subprocess.run(cmd, capture_output=True, text=True, timeout=30)]
    does: it returns a completed process or raises. *)
Inductive run_outcome : Type :=
| Completed (returncode : Z) (stdout stderr : string)
| Raised (e : exn).

(** The lines [get_build_info] prints on the console. *)
Inductive diagnostic : Type :=
| CliNotFound
| InvalidCredentials
| ExpiredCredentials
| CliError (error_msg : string)
| BuildNotFound (build_id : string)
| RequestTimedOut
| InvalidResponse
| CliNotInstalled
| Unexpected (msg : string).

Definition render (d : diagnostic) : string :=
  match d with
  | CliNotFound => "[red]Error: AWS CLI not found. Please install AWS CLI.[/red]"
  | InvalidCredentials =>
      "[red]Error: Invalid AWS credentials. Please configure AWS CLI.[/red]"
  | ExpiredCredentials =>
      "[red]Error: AWS credentials expired. Please refresh your credentials.[/red]"
  | CliError error_msg => "[red]AWS CLI Error: " ++ error_msg ++ "[/red]"
  | BuildNotFound build_id =>
      "[yellow]Warning: Build ID '" ++ build_id ++ "' not found.[/yellow]"
  | RequestTimedOut =>
      "[red]Error: AWS CLI request timed out. Check your network connection.[/red]"
  | InvalidResponse => "[red]Error: Invalid response from AWS CLI.[/red]"
  | CliNotInstalled =>
      "[red]Error: AWS CLI not installed. Please install it first.[/red]"
  | Unexpected msg => "[red]Unexpected error: " ++ msg ++ "[/red]"
  end.

(** Lines 68-76: the [if]/[elif] chain over [result.stderr]. *)
Definition classify_error (stderr : string) : diagnostic :=
  let error_msg := Py.strip stderr in
  if Py.contains "could not be found" (Py.lower error_msg) then CliNotFound
  else if Py.contains "credentials" (Py.lower error_msg) then InvalidCredentials
  else if Py.contains "expired" (Py.lower error_msg) then ExpiredCredentials
  else CliError error_msg.

Section Fetcher.

(** [json.loads]: a decoded value, or the exception it raises
    ([JSONDecodeError] on text that is not JSON). *)
Variable json_loads : string -> exn + json.

(** The body of the [try] block, lines 59-84: the line it prints, if
    any, just before it returns [None], and either the exception that
    leaves the block or the value returned. *)
Definition get_build_info_try (build_id : string) (result : run_outcome)
  : option diagnostic * (exn + option json) :=
  match result with
  | Raised e => (None, inl e)
  | Completed returncode stdout stderr =>
      if negb (returncode =? 0) then
        (Some (classify_error stderr), inr None)
      else
        match json_loads stdout with
        | inl e => (None, inl e)
        | inr data =>
            match py_get data "builds" with
            | inl e => (None, inl e)
            | inr builds =>
                if negb (truthy builds) then
                  (Some (BuildNotFound build_id), inr None)
                else
                  match py_first builds with
                  | inl e => (None, inl e)
                  | inr build => (None, inr (as_optional build))
                  end
            end
        end
  end.

(** The [except] clauses, lines 86-97, in their order. *)
Definition handler (e : exn) : diagnostic :=
  match cls e with
  | TimeoutExpired => RequestTimedOut
  | JSONDecodeError => InvalidResponse
  | FileNotFoundError => CliNotInstalled
  | _ => Unexpected (str_e e)
  end.

(** [get_build_info] on a console that prints every line it is given:
    the line printed and the value returned. *)
Definition get_build_info (build_id : string) (result : run_outcome)
  : option diagnostic * option json :=
  match get_build_info_try build_id result with
  | (printed, inr value) => (printed, value)
  | (_, inl e) => (Some (handler e), None)
  end.

(** [console.print(line)] can itself raise: the console library raises
    [MarkupError] for a line with a closing tag that matches no open
    tag, and the lines of [get_build_info] quote the error text, the
    build id and [str(e)].  [print_raises line] is the exception the
    call raises, if any. *)
Variable print_raises : string -> option exn.

(** An [except] clause at work: it prints its line and returns [None];
    an exception raised by that print leaves [get_build_info]. *)
Definition report (d : diagnostic) : option diagnostic * (exn + option json) :=
  match print_raises (render d) with
  | None => (Some d, inr None)
  | Some e => (None, inl e)
  end.

(** [get_build_info] on such a console: the line that was printed, and
    the value returned or the exception that escapes.  A print that
    fails inside the [try] block is caught by the [except] clauses like
    any other exception. *)
Definition get_build_info_on (build_id : string) (result : run_outcome)
  : option diagnostic * (exn + option json) :=
  match get_build_info_try build_id result with
  | (None, inr value) => (None, inr value)
  | (Some d, inr value) =>
      match print_raises (render d) with
      | None => (Some d, inr value)
      | Some e => report (handler e)
      end
  | (_, inl e) => report (handler e)
  end.

End Fetcher.

(** What a zero exit with decoded output gives, by the shape of the
    document. *)
Definition of_document (build_id : string) (data : json)
  : option diagnostic * option json :=
  match data with
  | JObj items =>
      match assoc "builds" items with
      | Some (JArr (build :: _)) => (None, as_optional build)
      | Some (JStr (String c _)) => (None, Some (JStr (String c EmptyString)))
      | Some (JObj (_ :: _)) =>
          (Some (Unexpected "0"), None)
      | Some (JBool true) =>
          (Some (Unexpected "'bool' object is not subscriptable"), None)
      | Some (JInt n) =>
          if n =? 0 then (Some (BuildNotFound build_id), None)
          else (Some (Unexpected "'int' object is not subscriptable"), None)
      | Some (JFloat x) =>
          if Qeq_bool x 0 then (Some (BuildNotFound build_id), None)
          else (Some (Unexpected "'float' object is not subscriptable"), None)
      | _ => (Some (BuildNotFound build_id), None)
      end
  | _ =>
      (Some (Unexpected
               ("'" ++ type_name data ++ "' object has no attribute 'get'")),
       None)
  end.

(** ** Data held by the monitor *)

(** [datetime.now()]: the local wall clock, in seconds. *)
Definition datetime : Type := Z.

Definition two_digits (n : Z) : string :=
  if n <? 10 then "0" ++ Py.str_int n else Py.str_int n.

(** [t.strftime("%H:%M:%S")] *)
Definition strftime_HMS (t : datetime) : string :=
  two_digits ((t / 3600) mod 24) ++ ":" ++
  two_digits ((t / 60) mod 60) ++ ":" ++
  two_digits (t mod 60).

Record BuildEvent : Type := mkBuildEvent {
  timestamp : datetime;
  status : string;
  message : string
}.

(** One element of ["phases"]: a dict read through
    [phase.get("phaseType", "Unknown")] and [phase.get("phaseStatus")],
    with the value types of the AWS CLI: a string, when the key is
    there.  [None] stands for a key that is missing (or, for the status,
    null). *)
Record Phase : Type := mkPhase {
  phaseType : option string;
  phaseStatus : option string
}.

(** The dict [get_build_info] hands to the monitor, with the value types
    of the AWS CLI: each key the script reads may be missing;
    [other_keys] are the keys it never reads. *)
Record BuildInfo : Type := mkBuildInfo {
  buildStatus : option string;
  projectName : option string;
  currentPhase : option string;
  phases : option (list Phase);
  other_keys : list string
}.

(** The literal [{}]. *)
Definition empty_dict : BuildInfo := mkBuildInfo None None None None [].

Definition is_some {A : Type} (o : option A) : bool :=
  match o with Some _ => true | None => false end.

(** Truth value of [build_info] in [if not build_info]: [None] and the
    empty dict are false. *)
Definition info_truthy (build_info : option BuildInfo) : bool :=
  match build_info with
  | None => false
  | Some d =>
      is_some (buildStatus d) || is_some (projectName d) ||
      is_some (currentPhase d) || is_some (phases d) ||
      match other_keys d with [] => false | _ => true end
  end.

(** [d.get(key, default)] *)
Definition get_default {A : Type} (field : option A) (default : A) : A :=
  match field with Some v => v | None => default end.

Record BuildWatchDog : Type := mkBuildWatchDog {
  build_id : string;
  interval : Z;
  notify_mode : string;
  events : list BuildEvent;
  last_status : option string;
  project_name : string
}.

(** [BuildWatchDog.__init__] *)
Definition init (build_id : string) (interval : Z) (notify_mode : string)
  : BuildWatchDog :=
  mkBuildWatchDog build_id interval notify_mode [] None "".

(** ** The dashboard *)

Inductive glyph : Type :=
| YellowCircle | GreenCircle | RedCircle | OrangeCircle | WhiteCircle
| CheckMark | Hourglass | CrossMark | PauseSign | HollowCircle.

Inductive timeline_row : Type :=
| PhaseRow (icon_style : string) (icon : glyph) (phase_name : string)
           (phase_status : string) (status_style : string)
| NoPhaseInformation.

Inductive event_row : Type :=
| EventRow (time : string) (event_message : string)
| NoEventsYet.

Record Panel : Type := mkPanel {
  header_text : list (string * string);
  status_icon : glyph;
  status_shown : string;
  status_style_shown : string;
  timeline : list timeline_row;
  event_table : list event_row;
  subtitle : string
}.

(** [status_emoji.get(status, white circle)] *)
Definition status_emoji (s : string) : glyph :=
  if s == "IN_PROGRESS" then YellowCircle
  else if s == "SUCCEEDED" then GreenCircle
  else if s == "FAILED" then RedCircle
  else if s == "STOPPED" then OrangeCircle
  else if s == "FAULT" then RedCircle
  else if s == "TIMED_OUT" then RedCircle
  else WhiteCircle.

(** Line 164 *)
Definition overall_style (s : string) : string :=
  if s == "SUCCEEDED" then "bold green"
  else if s == "IN_PROGRESS" then "bold yellow"
  else "bold red".

(** Lines 176-182: a status that is [None] or empty is replaced. *)
Definition resolve_phase_status (phase_name : string)
    (phase_status : option string) (overall : string) : string :=
  match phase_status with
  | Some s =>
      if negb (s == "") then s
      else if (phase_name == "COMPLETED") && (overall == "SUCCEEDED")
           then "SUCCEEDED" else "PENDING"
  | None =>
      if (phase_name == "COMPLETED") && (overall == "SUCCEEDED")
      then "SUCCEEDED" else "PENDING"
  end.

(** Lines 184-201: icon colour, icon and style of the status cell. *)
Definition phase_look (phase_status : string) : string * glyph * string :=
  if phase_status == "SUCCEEDED" then ("green", CheckMark, "green")
  else if phase_status == "IN_PROGRESS" then ("yellow", Hourglass, "yellow")
  else if phase_status == "FAILED" then ("red", CrossMark, "red")
  else if phase_status == "STOPPED" then ("yellow", PauseSign, "yellow")
  else if (phase_status == "FAULT") || (phase_status == "TIMED_OUT")
       then ("red", CrossMark, "red")
  else ("dim", HollowCircle, "dim").

(** One turn of the loop of lines 172-206. *)
Definition phase_row (overall : string) (phase : Phase) : timeline_row :=
  let phase_name := get_default (phaseType phase) "Unknown" in
  let phase_status :=
    resolve_phase_status phase_name (phaseStatus phase) overall in
  let '(icon_style, icon, status_style) := phase_look phase_status in
  PhaseRow icon_style icon phase_name phase_status status_style.

(** The status written in the second cell of a row. *)
Definition row_status (row : timeline_row) : option string :=
  match row with
  | PhaseRow _ _ _ phase_status _ => Some phase_status
  | NoPhaseInformation => None
  end.

(** [l[-n:]] for [n > 0] *)
Definition last_n {A : Type} (n : nat) (l : list A) : list A :=
  skipn (List.length l - n) l.

Definition event_line (event : BuildEvent) : event_row :=
  EventRow (strftime_HMS (timestamp event)) (message event).

Definition create_display (self : BuildWatchDog) (build_info : BuildInfo)
  : Panel :=
  let status := get_default (buildStatus build_info) "UNKNOWN" in
  let phases := get_default (phases build_info) [] in
  {| header_text :=
       [ ("BuildWatchDog", "bold cyan");
         (" | Build: ", "white");
         (Py.take 20 (build_id self) ++ "...", "dim");
         (" | Project: ", "white");
         (project_name self, "bold yellow") ];
     status_icon := status_emoji status;
     status_shown := status;
     status_style_shown := overall_style status;
     timeline :=
       match phases with
       | [] => [NoPhaseInformation]
       | _ => map (phase_row status) phases
       end;
     event_table :=
       match events self with
       | [] => [NoEventsYet]
       | _ => map event_line (last_n 8 (events self))
       end;
     subtitle :=
       "[dim]Press Ctrl+C to quit | Interval: " ++
       Py.str_int (interval self) ++ "s[/dim]" |}.

(** ** The event log *)

(** [status != self.last_status]: a [str] never equals [None]. *)
Definition differs (status : string) (last : option string) : bool :=
  match last with
  | Some l => negb (status == l)
  | None => true
  end.

Definition set_events (self : BuildWatchDog) (evs : list BuildEvent)
  : BuildWatchDog :=
  mkBuildWatchDog (build_id self) (interval self) (notify_mode self)
                  evs (last_status self) (project_name self).

Definition set_last_status (self : BuildWatchDog) (s : option string)
  : BuildWatchDog :=
  mkBuildWatchDog (build_id self) (interval self) (notify_mode self)
                  (events self) s (project_name self).

Definition set_project_name (self : BuildWatchDog) (name : string)
  : BuildWatchDog :=
  mkBuildWatchDog (build_id self) (interval self) (notify_mode self)
                  (events self) (last_status self) name.

Definition set_notify_mode (self : BuildWatchDog) (mode : string)
  : BuildWatchDog :=
  mkBuildWatchDog (build_id self) (interval self) mode
                  (events self) (last_status self) (project_name self).

(** A call [self.notifier.send(title, message)].  What the call does
    then depends on the platform ([osascript], [notify-send] or nothing)
    and is not followed further. *)
Definition notification : Type := (string * string)%type.

(** [add_event], lines 246-259: the object after the call and the
    notifier calls made during it. *)
Definition add_event (now : datetime) (status message : string)
    (self : BuildWatchDog) : BuildWatchDog * list notification :=
  let self := set_events self
                (events self ++ [mkBuildEvent now status message])%list in
  if differs status (last_status self) && is_some (last_status self) then
    (set_last_status self (Some status),
     if Py.mem (notify_mode self) ["desktop"; "both"]
     then [("BuildWatchDog", message)] else [])
  else (self, []).

(** ** The monitoring loop

    [run] blocks in [get_build_info] and in [time.sleep]; between two such
    calls it runs without outside influence.  So [run] is a machine that
    rests at a call and is moved on by what the call does. *)

(** How the process ends: [sys.exit(code)], [run] returning to [main]
    (which returns, so the interpreter exits with 0), or an exception
    nobody catches (traceback, exit status 1). *)
Inductive outcome : Type :=
| SysExit (code : Z)
| RunReturned
| Uncaught (error : string).

Definition exit_code (o : outcome) : Z :=
  match o with
  | SysExit code => code
  | RunReturned => 0
  | Uncaught _ => 1
  end.

(** The call the loop rests at. *)
Inductive location : Type :=
| InitialFetch                            (* line 267 *)
| PollFetch                               (* line 279 *)
| IntervalSleep                           (* lines 284 and 310 *)
| FinalPause (current_status : string)    (* line 298 *)
| FinalFetch (current_status : string)    (* line 299 *)
| Halted (o : outcome).

(** What the pending call does.  [Fetched now info]: [get_build_info]
    returned [info], and the clock reads [now] when the loop next logs an
    event.  [Slept]: [time.sleep] returned.  [SleepValueError]:
    [time.sleep] was given a negative length and raised [ValueError].
    [Sigint]: Ctrl+C, a [KeyboardInterrupt] raised inside the call.
    [FetchRaised error]: [get_build_info] let an exception escape (its
    own print failed).  [SleepOverflowError]: [time.sleep] was given a
    length beyond [max_sleep] and raised [OverflowError]. *)
Inductive reply : Type :=
| Fetched (now : datetime) (build_info : option BuildInfo)
| Slept
| SleepValueError
| Sigint
| FetchRaised (error : string)
| SleepOverflowError.

(** The largest number of seconds [time.sleep] converts to its 64-bit
    count of nanoseconds; a larger [int] makes it raise
    [OverflowError]. *)
Definition max_sleep : Z := 9223372036.

Record machine : Type := mkMachine {
  self : BuildWatchDog;
  at_call : location;
  sent : list notification;       (* calls of [notifier.send] *)
  console : list string;          (* [console.print] by [main] and [run] *)
  live : list Panel;              (* [Live(...)] and [live.update(...)] *)
  fetches : nat                   (* calls of [get_build_info] that ended *)
}.

Definition nl : string := String (ascii_of_nat 10) EmptyString.

Definition terminal_statuses : list string :=
  ["SUCCEEDED"; "FAILED"; "STOPPED"; "FAULT"; "TIMED_OUT"].

(** [run] up to its first call, lines 263-267. *)
Definition run_start (w : BuildWatchDog) : machine :=
  {| self := w;
     at_call := InitialFetch;
     sent := [];
     console := [ "[cyan]Starting BuildWatchDog...[/cyan]";
                  "[dim]Monitoring build: " ++ build_id w ++ "[/dim]" ++ nl ];
     live := [];
     fetches := 0 |}.

(** The dict to work with when [build_info] is true, [None] when
    [not build_info]. *)
Definition usable (build_info : option BuildInfo) : option BuildInfo :=
  if info_truthy build_info then build_info else None.

(** Lines 312-314 *)
Definition interrupted (m : machine) : machine :=
  {| self := self m;
     at_call := Halted (SysExit 0);
     sent := sent m;
     console := (console m ++
                 [(nl ++ "[yellow]Monitoring stopped by user.[/yellow]")%string])%list;
     live := live m;
     fetches := fetches m |}.

Definition goto (m : machine) (l : location) : machine :=
  {| self := self m; at_call := l; sent := sent m; console := console m;
     live := live m; fetches := fetches m |}.

(** [get_build_info] raised: nothing in [run] catches an [Exception],
    so the process ends with a traceback. *)
Definition fetch_crashed (m : machine) (error : string) : machine :=
  {| self := self m; at_call := Halted (Uncaught error); sent := sent m;
     console := console m; live := live m; fetches := S (fetches m) |}.

(** Lines 268-277, after the initial fetch returned. *)
Definition after_initial_fetch (m : machine) (now : datetime)
    (build_info : option BuildInfo) : machine :=
  match usable build_info with
  | None =>
      {| self := self m; at_call := Halted (SysExit 1); sent := sent m;
         console := console m; live := live m; fetches := S (fetches m) |}
  | Some build_info =>
      let w := set_project_name (self m)
                 (get_default (projectName build_info) "Unknown") in
      let initial_status := get_default (buildStatus build_info) "UNKNOWN" in
      let w := set_last_status w (Some initial_status) in
      let '(w, notes) :=
        add_event now initial_status
                  ("Started monitoring - " ++ initial_status) w in
      {| self := w; at_call := PollFetch;
         sent := (sent m ++ notes)%list;
         console := console m;
         live := (live m ++ [create_display w build_info])%list;
         fetches := S (fetches m) |}
  end.

(** Lines 281-310, after a fetch of the loop returned, up to the next
    call: the sleep of line 284, the pause of line 298 or the sleep of
    line 310. *)
Definition after_poll_fetch (m : machine) (now : datetime)
    (build_info : option BuildInfo) : machine :=
  match usable build_info with
  | None =>
      let '(w, notes) :=
        add_event now "ERROR" "Failed to fetch build info" (self m) in
      {| self := w; at_call := IntervalSleep;
         sent := (sent m ++ notes)%list;
         console := console m;
         live := (live m ++ [create_display w empty_dict])%list;
         fetches := S (fetches m) |}
  | Some build_info =>
      let current_status := get_default (buildStatus build_info) "UNKNOWN" in
      let '(w, notes) :=
        if differs current_status (last_status (self m)) then
          add_event now current_status
                    ("Status changed to " ++ current_status) (self m)
        else (self m, []) in
      {| self := w;
         at_call := if Py.mem current_status terminal_statuses
                    then FinalPause current_status else IntervalSleep;
         sent := (sent m ++ notes)%list;
         console := console m;
         live := (live m ++ [create_display w build_info])%list;
         fetches := S (fetches m) |}
  end.

(** Lines 300-308, after the final fetch returned. *)
Definition after_final_fetch (m : machine) (current_status : string)
    (final_build_info : option BuildInfo) : machine :=
  {| self := self m;
     at_call := Halted RunReturned;
     sent := sent m;
     console := (console m ++
                 [(nl ++ "[bold]Build " ++ current_status ++ "![/bold]")%string])%list;
     live := match usable final_build_info with
             | Some info => (live m ++ [create_display (self m) info])%list
             | None => live m
             end;
     fetches := S (fetches m) |}.

(** One move of [run].  [None]: the reply does not fit the pending call
    (a fetch cannot answer a sleep; [time.sleep] does not return for a
    negative length, raises [ValueError] only for a negative length and
    [OverflowError] only for a length beyond [max_sleep]; a halted
    process makes no call).  For a length beyond [max_sleep] the reply
    [Slept] is not excluded, although CPython raises on such a length.
    The initial fetch lies outside the [try] block, and an interrupt
    there is not part of the model. *)
Definition step (m : machine) (r : reply) : option machine :=
  match at_call m, r with
  | InitialFetch, Fetched now info => Some (after_initial_fetch m now info)
  | InitialFetch, FetchRaised error => Some (fetch_crashed m error)
  | PollFetch, Fetched now info => Some (after_poll_fetch m now info)
  | PollFetch, Sigint => Some (interrupted m)
  | PollFetch, FetchRaised error => Some (fetch_crashed m error)
  | IntervalSleep, Slept =>
      if 0 <=? interval (self m) then Some (goto m PollFetch) else None
  | IntervalSleep, SleepValueError =>
      if interval (self m) <? 0
      then Some (goto m (Halted (Uncaught
                   "ValueError: sleep length must be non-negative")))
      else None
  | IntervalSleep, SleepOverflowError =>
      if max_sleep <? interval (self m)
      then Some (goto m (Halted (Uncaught
                   "OverflowError: timestamp too large to convert to C _PyTime_t")))
      else None
  | IntervalSleep, Sigint => Some (interrupted m)
  | FinalPause current_status, Slept => Some (goto m (FinalFetch current_status))
  | FinalPause _, Sigint => Some (interrupted m)
  | FinalFetch current_status, Fetched _ info =>
      Some (after_final_fetch m current_status info)
  | FinalFetch _, Sigint => Some (interrupted m)
  | FinalFetch _, FetchRaised error => Some (fetch_crashed m error)
  | _, _ => None
  end.

(** [run] driven by the replies of its calls, oldest first. *)
Fixpoint run_from (m : machine) (replies : list reply) : option machine :=
  match replies with
  | [] => Some m
  | r :: rest =>
      match step m r with
      | Some m' => run_from m' rest
      | None => None
      end
  end.

(** [main], lines 349-363, after the arguments were parsed: the warning
    of line 353 and then [run], on a console that prints the two opening
    lines of [run]. *)
Definition main (build_id : string) (interval : Z) (notify : string)
  : machine :=
  let m := run_start (init build_id interval notify) in
  if interval <? 5 then
    {| self := self m; at_call := at_call m; sent := sent m;
       console := "[yellow]Warning: Interval less than 5 seconds may cause rate limiting.[/yellow]"
                  :: console m;
       live := live m; fetches := fetches m |}
  else m.

(** Line 264 quotes the build id, so its [print] can raise like the
    prints of [get_build_info]; nothing catches that, and the process
    ends before any fetch.  [main_on print_raises] is [main] on such a
    console. *)
Definition opening_line (build_id : string) : string :=
  "[dim]Monitoring build: " ++ build_id ++ "[/dim]" ++ nl.

Definition main_on (print_raises : string -> option exn)
    (build_id : string) (interval : Z) (notify : string) : machine :=
  match print_raises (opening_line build_id) with
  | None => main build_id interval notify
  | Some e =>
      {| self := init build_id interval notify;
         at_call := Halted (Uncaught (str_e e));
         sent := [];
         console :=
           ((if interval <? 5
             then ["[yellow]Warning: Interval less than 5 seconds may cause rate limiting.[/yellow]"]
             else [])
            ++ ["[cyan]Starting BuildWatchDog...[/cyan]"])%list;
         live := [];
         fetches := 0 |}
  end.

(** The object as [run] prepares it in lines 271-273. *)
Definition prepared (w : BuildWatchDog) (d : BuildInfo) : BuildWatchDog :=
  set_last_status
    (set_project_name w (get_default (projectName d) "Unknown"))
    (Some (get_default (buildStatus d) "UNKNOWN")).

(** The result of the test of line 290 and the call of line 291. *)
Definition logged_change (w : BuildWatchDog) (now : datetime)
    (current_status : string) : BuildWatchDog * list notification :=
  if differs current_status (last_status w) then
    add_event now current_status
              ("Status changed to " ++ current_status) w
  else (w, []).

(** The calls made inside the [while] loop of lines 278-310. *)
Definition in_loop (l : location) : bool :=
  match l with
  | PollFetch | IntervalSleep | FinalPause _ | FinalFetch _ => true
  | InitialFetch | Halted _ => false
  end.

(** The exit status, once the process has ended. *)
Definition exit_code_of (l : location) : option Z :=
  match l with
  | Halted o => Some (exit_code o)
  | _ => None
  end.


(** Case analysis of [step m r = Some m']: the moves, by the call the
    machine rests at and then by the reply, in the order of [reply]. *)
Ltac step_cases m r :=
  unfold step;
  destruct (at_call m) eqn:?Hat;
  destruct r as [?now ?info | | | | ?error | ];
  try discriminate;
  try match goal with
      | |- context [0 <=? interval (self m)] =>
          destruct (0 <=? interval (self m)) eqn:?Hiv; [| discriminate]
      | |- context [interval (self m) <? 0] =>
          destruct (interval (self m) <? 0) eqn:?Hneg; [| discriminate]
      | |- context [max_sleep <? interval (self m)] =>
          destruct (max_sleep <? interval (self m)) eqn:?Hbig; [| discriminate]
      end;
  intros [= <-].

(** ** Sample data for the examples *)

Definition dq : string := String (ascii_of_nat 34) EmptyString.

(** The text [{"builds": [{}]}] *)
Definition doc_one_build : string := "{" ++ dq ++ "builds" ++ dq ++ ": [{}]}".

(** The text [{"builds": [null]}] *)
Definition doc_null_build : string :=
  "{" ++ dq ++ "builds" ++ dq ++ ": [null]}".

(** The text [{"builds": "abc"}] *)
Definition doc_builds_text : string :=
  "{" ++ dq ++ "builds" ++ dq ++ ": " ++ dq ++ "abc" ++ dq ++ "}".

(** A decoder that knows a few documents and rejects every other text,
    as [json.loads] does with text that is not JSON. *)
Definition sample_loads (text : string) : exn + json :=
  if text == "{}" then inr (JObj [])
  else if text == "[]" then inr (JArr [])
  else if text == doc_one_build then inr (JObj [("builds", JArr [JObj []])])
  else if text == doc_null_build then inr (JObj [("builds", JArr [JNull])])
  else if text == doc_builds_text then inr (JObj [("builds", JStr "abc")])
  else inl (mkExn JSONDecodeError "Expecting value: line 1 column 1 (char 0)").

(** The error of the console library for a closing tag that matches no
    open tag. *)
Definition markup_error (tag : string) (position : Z) : exn :=
  mkExn MarkupError
    ("closing tag '" ++ tag ++ "' at position " ++ Py.str_int position
     ++ " doesn't match any open tag").

(** A stand-in for [console.print] that fails as the console library
    does on a line with the tag [[/bold]] when no [[bold]] is open (the
    lines of [get_build_info] and the opening lines of [run] open none),
    and prints every other line. *)
Definition sample_print_raises (line : string) : option exn :=
  match String.index 0 "[/bold]" line with
  | Some n => Some (markup_error "[/bold]" (Z.of_nat n))
  | None => None
  end.

(** ** The command line and the notifier *)

(** [AWSCLIWrapper.__init__], lines 50-54.  [profile] is [None] or a
    string; [if profile] is false for both [None] and the empty string. *)
Definition base_cmd (profile : option string) : list string :=
  match profile with
  | Some p =>
      if negb (p == "") then ["aws"; "codebuild"; "--profile"; p]
      else ["aws"; "codebuild"]
  | None => ["aws"; "codebuild"]
  end.

(** Line 59: the command [get_build_info] runs. *)
Definition batch_get_builds_cmd (profile : option string) (build_id : string)
  : list string :=
  (base_cmd profile ++ ["batch-get-builds"; "--ids"; build_id])%list.

(** [NotificationManager.send], lines 104-117: the commands it runs on
    the platform [sys.platform].  Their result is not looked at
    ([check=False], and every exception is swallowed). *)
Definition send (platform title message : string) : list (list string) :=
  if platform == "darwin" then
    [["osascript"; "-e";
      "display notification " ++ dq ++ message ++ dq
      ++ " with title " ++ dq ++ title ++ dq]]
  else if String.prefix "linux" platform then
    [["notify-send"; title; message]]
  else [].

(** The notification commands run so far, on a given platform. *)
Definition commands_run (platform : string) (m : machine)
  : list (list string) :=
  flat_map (fun n => send platform (fst n) (snd n)) (sent m).

(** The six statuses the status line has an icon for, lines 144-151. *)
Definition known_statuses : list string :=
  ["IN_PROGRESS"; "SUCCEEDED"; "FAILED"; "STOPPED"; "FAULT"; "TIMED_OUT"].

(** The name written in the first cell of a row. *)
Definition row_name (row : timeline_row) : option string :=
  match row with
  | PhaseRow _ _ phase_name _ _ => Some phase_name
  | NoPhaseInformation => None
  end.

(** Case analysis over the string comparisons of a goal. *)
Ltac string_cases :=
  repeat match goal with
         | |- context [String.eqb ?a ?b] =>
             destruct (String.eqb_spec a b); [subst |]
         end.

(** * Properties *)

(** ** Python strings *)

Example lower_mixed : Py.lower "Could NOT be Found" = "could not be found".
Proof. reflexivity. Qed.

Example strip_both : Py.strip "  a b
" = "a b".
Proof. reflexivity. Qed.

Example contains_inner : Py.contains "expired" "token expired." = true.
Proof. reflexivity. Qed.

Example str_int_neg : Py.str_int (-5) = "-5".
Proof. reflexivity. Qed.

(** ** The fetcher *)

Section FetcherFacts.

Variable json_loads : string -> exn + json.
Variable build_id : string.

Local Abbreviation fetch := (get_build_info json_loads build_id).

Lemma fetch_nonzero_exit (rc : Z) (out err : string) :
  rc <> 0 -> fetch (Completed rc out err) = (Some (classify_error err), None).
Proof.
  intros Hrc. unfold get_build_info, get_build_info_try.
  destruct (rc =? 0) eqn:E; [apply Z.eqb_eq in E; contradiction | reflexivity].
Qed.

Lemma fetch_raised (e : exn) : fetch (Raised e) = (Some (handler e), None).
Proof. reflexivity. Qed.

Lemma fetch_undecodable (out err : string) (e : exn) :
  json_loads out = inl e ->
  fetch (Completed 0 out err) = (Some (handler e), None).
Proof.
  intros H. unfold get_build_info, get_build_info_try. simpl. now rewrite H.
Qed.

Lemma fetch_decoded (out err : string) (data : json) :
  json_loads out = inr data ->
  fetch (Completed 0 out err) = of_document build_id data.
Proof.
  intros H. unfold get_build_info, get_build_info_try. simpl. rewrite H.
  destruct data as [| b | n | x | s | l | items]; try reflexivity.
  simpl. destruct (assoc "builds" items) as [v |]; [| reflexivity].
  destruct v as [| [] | n | x | [| c s] | [| b l] | [| p l]];
    try reflexivity.
  - simpl. destruct (n =? 0); reflexivity.
  - simpl. destruct (Qeq_bool x 0); reflexivity.
Qed.

Lemma of_document_some (data v : json) :
  snd (of_document build_id data) = Some v ->
  exists items,
    data = JObj items /\
    ((exists rest, assoc "builds" items = Some (JArr (v :: rest))) \/
     (exists c s, assoc "builds" items = Some (JStr (String c s)) /\
                  v = JStr (String c EmptyString))).
Proof.
  destruct data as [| b | n | x | s | l | items]; simpl; try discriminate.
  intros H. exists items. split; [reflexivity |].
  destruct (assoc "builds" items) as [w |]; [| discriminate].
  destruct w as [| [] | n | x | [| c s] | [| b l] | [| p l]];
    simpl in H; try discriminate.
  - destruct (n =? 0); discriminate.
  - destruct (Qeq_bool x 0); discriminate.
  - right. exists c, s. split; congruence.
  - left. exists l. destruct b; simpl in H; congruence.
Qed.

(** Every value [get_build_info] returns is the first element of a
    non-empty ["builds"] list or the first character of a non-empty
    ["builds"] string, from a command that exited with zero. *)
Lemma fetch_some (o : run_outcome) (v : json) :
  snd (fetch o) = Some v ->
  exists out err items,
    o = Completed 0 out err /\ json_loads out = inr (JObj items) /\
    ((exists rest, assoc "builds" items = Some (JArr (v :: rest))) \/
     (exists c s, assoc "builds" items = Some (JStr (String c s)) /\
                  v = JStr (String c EmptyString))).
Proof.
  destruct o as [rc out err | e]; [| discriminate].
  destruct (Z.eq_dec rc 0) as [-> | Hrc].
  - destruct (json_loads out) as [e | data] eqn:E.
    + rewrite (fetch_undecodable _ _ _ E). discriminate.
    + rewrite (fetch_decoded _ _ _ E). intros H.
      destruct (of_document_some _ _ H) as (items & -> & Hb).
      exists out, err, items. auto.
  - rewrite (fetch_nonzero_exit _ _ _ Hrc). discriminate.
Qed.

End FetcherFacts.

(** *** Printing that fails *)

Section ConsoleFacts.

Variable json_loads : string -> exn + json.
Variable print_raises : string -> option exn.
Variable build_id : string.

Local Abbreviation fetch_on :=
  (get_build_info_on json_loads print_raises build_id).

Lemma report_escapes (d : diagnostic) (p : option diagnostic) (e : exn) :
  report print_raises d = (p, inl e) ->
  p = None /\ print_raises (render d) = Some e.
Proof.
  unfold report. destruct (print_raises (render d)) as [e' |] eqn:E.
  - intros [= <- <-]. now split.
  - discriminate.
Qed.

Lemma report_returns (d : diagnostic) (p : option diagnostic)
    (value : option json) :
  report print_raises d = (p, inr value) ->
  p = Some d /\ value = None /\ print_raises (render d) = None.
Proof.
  unfold report. destruct (print_raises (render d)) as [e' |] eqn:E.
  - discriminate.
  - intros [= <- <-]. now repeat split.
Qed.

(** On a console whose [print] does not fail, [get_build_info_on] is
    [get_build_info]. *)
Lemma get_build_info_on_printing (o : run_outcome) :
  (forall d, print_raises (render d) = None) ->
  fetch_on o
  = (fst (get_build_info json_loads build_id o),
     inr (snd (get_build_info json_loads build_id o))).
Proof.
  intros Hp. unfold get_build_info_on, get_build_info, report.
  destruct (get_build_info_try json_loads build_id o) as [[d |] [e | value]];
    rewrite ?Hp; reflexivity.
Qed.

(** An exception leaves [get_build_info_on] only from the [print] of an
    [except] clause. *)
Lemma fetch_on_escapes (o : run_outcome) (p : option diagnostic) (e : exn) :
  fetch_on o = (p, inl e) ->
  p = None /\ exists e0, print_raises (render (handler e0)) = Some e.
Proof.
  unfold get_build_info_on.
  destruct (get_build_info_try json_loads build_id o) as [[d |] [e1 | value]].
  - intros H. apply report_escapes in H. destruct H as [-> H]. eauto.
  - destruct (print_raises (render d)) as [e1 |]; [| discriminate].
    intros H. apply report_escapes in H. destruct H as [-> H]. eauto.
  - intros H. apply report_escapes in H. destruct H as [-> H]. eauto.
  - discriminate.
Qed.

Lemma fetch_on_nonzero_exit (rc : Z) (out err : string) :
  rc <> 0 ->
  fetch_on (Completed rc out err)
  = match print_raises (render (classify_error err)) with
    | None => (Some (classify_error err), inr None)
    | Some e => report print_raises (handler e)
    end.
Proof.
  intros Hrc. unfold get_build_info_on, get_build_info_try.
  destruct (rc =? 0) eqn:E; [apply Z.eqb_eq in E; contradiction | reflexivity].
Qed.

End ConsoleFacts.

(** C7.  [get_build_info] is not total for its caller.  When the command
    exits with a non-zero status and [console.print] raises on the line
    that reports the error text, the [except Exception] clause catches
    that exception and prints its own line, which quotes [str(e)]; when
    that second [print] raises as well, its exception leaves
    [get_build_info]: nothing is returned and nothing was printed. *)
Theorem print_failure_escapes_get_build_info
    (json_loads : string -> exn + json) (print_raises : string -> option exn)
    (build_id : string) (rc : Z) (out err : string) (e1 e2 : exn) :
  rc <> 0 ->
  print_raises (render (classify_error err)) = Some e1 ->
  print_raises (render (handler e1)) = Some e2 ->
  get_build_info_on json_loads print_raises build_id (Completed rc out err)
  = (None, inl e2).
Proof.
  intros Hrc H1 H2. rewrite (fetch_on_nonzero_exit _ _ _ _ _ _ Hrc), H1.
  unfold report. now rewrite H2.
Qed.

(** The command fails with the error text [boom [/bold]]: the tag closes
    nothing, the console raises [MarkupError] on the line that quotes the
    text, and again on the line that quotes the first error. *)
Lemma print_failure_escapes_get_build_info_witness :
  get_build_info_on sample_loads sample_print_raises "demo:1"
    (Completed 255 "" "boom [/bold]")
  = (None, inl (markup_error "[/bold]" 36)).
Proof.
  apply (print_failure_escapes_get_build_info sample_loads sample_print_raises
           "demo:1" 255 "" "boom [/bold]" (markup_error "[/bold]" 25)).
  - lia.
  - reflexivity.
  - reflexivity.
Defined.

(** A ["builds"] entry that is a non-empty string is not rejected: its
    first character is returned. *)
Example get_build_info_builds_text :
  get_build_info sample_loads "demo:1" (Completed 0 doc_builds_text "")
  = (None, Some (JStr "a")).
Proof. reflexivity. Qed.

(** ** Classification of the error text *)

Lemma classify_not_found (stderr : string) :
  Py.contains "could not be found" (Py.lower (Py.strip stderr)) = true ->
  classify_error stderr = CliNotFound.
Proof. intros H. unfold classify_error. now rewrite H. Qed.

Lemma classify_credentials (stderr : string) :
  Py.contains "could not be found" (Py.lower (Py.strip stderr)) = false ->
  Py.contains "credentials" (Py.lower (Py.strip stderr)) = true ->
  classify_error stderr = InvalidCredentials.
Proof. intros H1 H2. unfold classify_error. now rewrite H1, H2. Qed.

Lemma classify_expired_iff (stderr : string) :
  classify_error stderr = ExpiredCredentials <->
  Py.contains "expired" (Py.lower (Py.strip stderr)) = true /\
  Py.contains "could not be found" (Py.lower (Py.strip stderr)) = false /\
  Py.contains "credentials" (Py.lower (Py.strip stderr)) = false.
Proof.
  unfold classify_error.
  destruct (Py.contains "could not be found" _);
    [split; [discriminate | intros (_ & H & _); discriminate] |].
  destruct (Py.contains "credentials" _);
    [split; [discriminate | intros (_ & _ & H); discriminate] |].
  destruct (Py.contains "expired" _);
    [tauto | split; [discriminate | intros (H & _); discriminate]].
Qed.

Lemma printed_expired (json_loads : string -> exn + json)
    (build_id : string) (o : run_outcome) :
  fst (get_build_info json_loads build_id o) = Some ExpiredCredentials ->
  exists rc out err,
    o = Completed rc out err /\ rc <> 0 /\
    classify_error err = ExpiredCredentials.
Proof.
  destruct o as [rc out err | e].
  - destruct (Z.eq_dec rc 0) as [-> | Hrc].
    + destruct (json_loads out) as [e | data] eqn:E.
      * rewrite (fetch_undecodable _ _ _ _ _ E). simpl.
        unfold handler. destruct (cls e); discriminate.
      * rewrite (fetch_decoded _ _ _ _ _ E).
        destruct data as [| b | n | x | s | l | items]; try discriminate.
        simpl. destruct (assoc "builds" items) as [w |]; [| discriminate].
        destruct w as [| [] | n | x | [| c s] | [| b l] | [| p l]];
          try discriminate.
        -- destruct (n =? 0); discriminate.
        -- destruct (Qeq_bool x 0); discriminate.
    + rewrite (fetch_nonzero_exit _ _ _ _ _ Hrc). simpl. intros [= H].
      now exists rc, out, err.
  - simpl. unfold handler. destruct (cls e); discriminate.
Qed.

(** C10, as amended.  On a non-zero exit the text of the error stream,
    stripped and lowered, is tested for ["could not be found"], then
    ["credentials"], then ["expired"].  Text with ["could not be found"]
    is reported as a missing CLI whatever else it holds; text without it
    that holds ["credentials"] is reported as invalid credentials, with
    or without ["expired"]; and the expired-credentials line is printed
    exactly for a non-zero exit whose text holds ["expired"] and neither
    of the other two. *)
Theorem error_classification_precedence
    (json_loads : string -> exn + json) (build_id : string) :
  (forall rc out err,
      rc <> 0 ->
      Py.contains "could not be found" (Py.lower (Py.strip err)) = true ->
      fst (get_build_info json_loads build_id (Completed rc out err))
      = Some CliNotFound) /\
  (forall rc out err,
      rc <> 0 ->
      Py.contains "could not be found" (Py.lower (Py.strip err)) = false ->
      Py.contains "credentials" (Py.lower (Py.strip err)) = true ->
      fst (get_build_info json_loads build_id (Completed rc out err))
      = Some InvalidCredentials) /\
  (forall o,
      fst (get_build_info json_loads build_id o) = Some ExpiredCredentials <->
      exists rc out err,
        o = Completed rc out err /\ rc <> 0 /\
        Py.contains "expired" (Py.lower (Py.strip err)) = true /\
        Py.contains "could not be found" (Py.lower (Py.strip err)) = false /\
        Py.contains "credentials" (Py.lower (Py.strip err)) = false).
Proof.
  repeat split.
  - intros rc out err Hrc H.
    rewrite (fetch_nonzero_exit _ _ _ _ _ Hrc). simpl.
    now rewrite classify_not_found.
  - intros rc out err Hrc H1 H2.
    rewrite (fetch_nonzero_exit _ _ _ _ _ Hrc). simpl.
    now rewrite classify_credentials.
  - intros H. destruct (printed_expired _ _ _ H) as (rc & out & err & -> & Hrc & Hc).
    exists rc, out, err. apply classify_expired_iff in Hc. tauto.
  - intros (rc & out & err & -> & Hrc & H).
    rewrite (fetch_nonzero_exit _ _ _ _ _ Hrc). simpl. f_equal.
    now apply classify_expired_iff.
Qed.

Lemma error_classification_precedence_witness :
  fst (get_build_info sample_loads "demo:1"
         (Completed 255 "" "The config profile (dev) could not be found"))
  = Some CliNotFound /\
  fst (get_build_info sample_loads "demo:1"
         (Completed 254 "" "Unable to refresh: Credentials have EXPIRED"))
  = Some InvalidCredentials /\
  fst (get_build_info sample_loads "demo:1"
         (Completed 254 "" "ExpiredToken: the security token is expired"))
  = Some ExpiredCredentials.
Proof.
  destruct (error_classification_precedence sample_loads "demo:1")
    as (Hfound & Hcred & Hexp).
  split; [apply Hfound; [lia | reflexivity] |].
  split; [apply Hcred; [lia | reflexivity | reflexivity] |].
  apply Hexp. eexists _, _, _. split; [reflexivity |].
  split; [lia |]. repeat split; reflexivity.
Defined.

(** C10 as stated fails: an error text that holds ["credentials"] and
    ["expired"] is reported as a missing CLI, not as invalid credentials,
    when it also holds ["could not be found"]. *)
Lemma credentials_and_expired_reported_as_not_found :
  let err := "Credentials expired: the config profile (dev) could not be found" in
  Py.contains "credentials" (Py.lower (Py.strip err)) = true /\
  Py.contains "expired" (Py.lower (Py.strip err)) = true /\
  fst (get_build_info sample_loads "demo:1" (Completed 255 "" err))
  = Some CliNotFound /\
  fst (get_build_info sample_loads "demo:1" (Completed 255 "" err))
  <> Some InvalidCredentials.
Proof.
  cbv zeta. repeat split; try reflexivity. discriminate.
Qed.

(** ** The event log *)

Lemma differs_true_iff (s : string) (last : option string) :
  differs s last = true <-> last <> Some s.
Proof.
  destruct last as [l |]; simpl; [| split; [discriminate | reflexivity]].
  destruct (String.eqb_spec s l) as [-> | Hne]; simpl.
  - split; [discriminate | congruence].
  - split; [congruence | reflexivity].
Qed.

Lemma differs_false_iff (s : string) (last : option string) :
  differs s last = false <-> last = Some s.
Proof.
  destruct (differs s last) eqn:E.
  - apply differs_true_iff in E. split; [discriminate | contradiction].
  - split; [intros _ | reflexivity].
    destruct last as [l |]; [| discriminate]. simpl in E.
    destruct (String.eqb_spec s l); [congruence | discriminate].
Qed.

Lemma differs_same (s : string) : differs s (Some s) = false.
Proof. now apply differs_false_iff. Qed.

Lemma mem_desktop_both (mode : string) :
  Py.mem mode ["desktop"; "both"] = true <-> mode = "desktop" \/ mode = "both".
Proof.
  unfold Py.mem. simpl.
  destruct (String.eqb_spec mode "desktop"), (String.eqb_spec mode "both");
    simpl; intuition congruence.
Qed.

Section AddEvent.

Variables (now : datetime) (s msg : string) (w : BuildWatchDog).

Lemma add_event_events :
  events (fst (add_event now s msg w))
  = (events w ++ [mkBuildEvent now s msg])%list.
Proof.
  unfold add_event. simpl.
  destruct (differs s (last_status w) && is_some (last_status w)); reflexivity.
Qed.

Lemma add_event_last_status :
  last_status (fst (add_event now s msg w))
  = if differs s (last_status w) && is_some (last_status w)
    then Some s else last_status w.
Proof.
  unfold add_event. simpl.
  destruct (differs s (last_status w) && is_some (last_status w)); reflexivity.
Qed.

Lemma add_event_sent :
  snd (add_event now s msg w)
  = if differs s (last_status w) && is_some (last_status w)
       && Py.mem (notify_mode w) ["desktop"; "both"]
    then [("BuildWatchDog", msg)] else [].
Proof.
  unfold add_event. simpl.
  destruct (differs s (last_status w) && is_some (last_status w)),
           (Py.mem (notify_mode w) ["desktop"; "both"]); reflexivity.
Qed.

Lemma add_event_frame :
  build_id (fst (add_event now s msg w)) = build_id w /\
  interval (fst (add_event now s msg w)) = interval w /\
  notify_mode (fst (add_event now s msg w)) = notify_mode w /\
  project_name (fst (add_event now s msg w)) = project_name w.
Proof.
  unfold add_event. simpl.
  destruct (differs s (last_status w) && is_some (last_status w));
    repeat split.
Qed.

(** The guard of line 256 in terms of the recorded status. *)
Lemma changed_and_recorded :
  differs s (last_status w) && is_some (last_status w) = true <->
  exists prior, last_status w = Some prior /\ s <> prior.
Proof.
  destruct (last_status w) as [l |] eqn:E; simpl.
  - rewrite andb_true_r. split.
    + intros H. exists l. split; [reflexivity |].
      destruct (String.eqb_spec s l); [discriminate | assumption].
    + intros (prior & [= <-] & Hne).
      destruct (String.eqb_spec s l); [contradiction | reflexivity].
  - split; [discriminate | intros (prior & H & _); discriminate].
Qed.

End AddEvent.


(** ** The loop, one call at a time *)

Lemma usable_some (info : option BuildInfo) (d : BuildInfo) :
  usable info = Some d <-> info = Some d /\ info_truthy info = true.
Proof.
  unfold usable. destruct (info_truthy info); split.
  - intros H. now split.
  - now intros (H & _).
  - discriminate.
  - intros (_ & H). discriminate.
Qed.

Lemma usable_none (info : option BuildInfo) :
  usable info = None <-> info_truthy info = false.
Proof.
  unfold usable. destruct (info_truthy info) eqn:E.
  - destruct info; [split; discriminate | discriminate].
  - split; reflexivity.
Qed.

Lemma after_initial_fetch_failed (m : machine) (now : datetime)
    (info : option BuildInfo) :
  usable info = None ->
  after_initial_fetch m now info
  = {| self := self m; at_call := Halted (SysExit 1); sent := sent m;
       console := console m; live := live m; fetches := S (fetches m) |}.
Proof. intros H. unfold after_initial_fetch. now rewrite H. Qed.

Lemma after_initial_fetch_ok (m : machine) (now : datetime)
    (info : option BuildInfo) (d : BuildInfo) :
  usable info = Some d ->
  let initial_status := get_default (buildStatus d) "UNKNOWN" in
  let w := set_events (prepared (self m) d)
             (events (self m) ++
              [mkBuildEvent now initial_status
                 ("Started monitoring - " ++ initial_status)])%list in
  after_initial_fetch m now info
  = {| self := w; at_call := PollFetch; sent := sent m;
       console := console m;
       live := (live m ++ [create_display w d])%list;
       fetches := S (fetches m) |}.
Proof.
  intros H. unfold after_initial_fetch. rewrite H.
  unfold add_event, prepared.
  cbn [last_status set_events set_last_status set_project_name].
  rewrite differs_same. cbn [andb]. now rewrite app_nil_r.
Qed.

Lemma after_poll_fetch_failed (m : machine) (now : datetime)
    (info : option BuildInfo) :
  usable info = None ->
  let logged := add_event now "ERROR" "Failed to fetch build info" (self m) in
  after_poll_fetch m now info
  = {| self := fst logged; at_call := IntervalSleep;
       sent := (sent m ++ snd logged)%list;
       console := console m;
       live := (live m ++ [create_display (fst logged) empty_dict])%list;
       fetches := S (fetches m) |}.
Proof.
  intros H. unfold after_poll_fetch. rewrite H.
  now destruct (add_event now "ERROR" "Failed to fetch build info" (self m)).
Qed.

Lemma after_poll_fetch_ok (m : machine) (now : datetime)
    (info : option BuildInfo) (d : BuildInfo) :
  usable info = Some d ->
  let current_status := get_default (buildStatus d) "UNKNOWN" in
  let logged := logged_change (self m) now current_status in
  after_poll_fetch m now info
  = {| self := fst logged;
       at_call := if Py.mem current_status terminal_statuses
                  then FinalPause current_status else IntervalSleep;
       sent := (sent m ++ snd logged)%list;
       console := console m;
       live := (live m ++ [create_display (fst logged) d])%list;
       fetches := S (fetches m) |}.
Proof.
  intros H. unfold after_poll_fetch, logged_change. rewrite H.
  now destruct (if differs _ _ then _ else _).
Qed.

Lemma logged_change_events (w : BuildWatchDog) (now : datetime) (cur : string) :
  events (fst (logged_change w now cur))
  = if differs cur (last_status w)
    then (events w ++ [mkBuildEvent now cur ("Status changed to " ++ cur)])%list
    else events w.
Proof.
  unfold logged_change. destruct (differs cur (last_status w)); [| reflexivity].
  apply add_event_events.
Qed.

Lemma logged_change_frame (w : BuildWatchDog) (now : datetime) (cur : string) :
  build_id (fst (logged_change w now cur)) = build_id w /\
  interval (fst (logged_change w now cur)) = interval w /\
  notify_mode (fst (logged_change w now cur)) = notify_mode w /\
  project_name (fst (logged_change w now cur)) = project_name w.
Proof.
  unfold logged_change. destruct (differs cur (last_status w)).
  - apply add_event_frame.
  - repeat split.
Qed.

Lemma mem_terminal_iff (s : string) :
  Py.mem s terminal_statuses = true <-> In s terminal_statuses.
Proof.
  unfold Py.mem. rewrite existsb_exists. split.
  - intros (x & Hin & Heq). apply String.eqb_eq in Heq. now subst.
  - intros H. exists s. split; [assumption | apply String.eqb_refl].
Qed.

(** What a step keeps: the configuration of the object. *)
Lemma step_config (m m' : machine) (r : reply) :
  step m r = Some m' ->
  build_id (self m') = build_id (self m) /\
  interval (self m') = interval (self m) /\
  notify_mode (self m') = notify_mode (self m).
Proof.
  step_cases m r; try (repeat split; fail).
  - destruct (usable info) as [d |] eqn:E.
    + rewrite (after_initial_fetch_ok _ _ _ _ E). repeat split.
    + rewrite (after_initial_fetch_failed _ _ _ E). repeat split.
  - destruct (usable info) as [d |] eqn:E.
    + rewrite (after_poll_fetch_ok _ _ _ _ E). simpl.
      destruct (logged_change_frame (self m) now
                  (get_default (buildStatus d) "UNKNOWN")) as (? & ? & ? & _).
      auto.
    + rewrite (after_poll_fetch_failed _ _ _ E). simpl.
      destruct (add_event_frame now "ERROR" "Failed to fetch build info"
                  (self m)) as (? & ? & ? & _).
      auto.
Qed.

Lemma step_events_grow (m m' : machine) (r : reply) :
  step m r = Some m' ->
  exists added, events (self m') = (events (self m) ++ added)%list.
Proof.
  step_cases m r; try (exists []; simpl; now rewrite app_nil_r).
  - destruct (usable info) as [d |] eqn:E.
    + rewrite (after_initial_fetch_ok _ _ _ _ E). simpl. eauto.
    + rewrite (after_initial_fetch_failed _ _ _ E). simpl.
      exists []. now rewrite app_nil_r.
  - destruct (usable info) as [d |] eqn:E.
    + rewrite (after_poll_fetch_ok _ _ _ _ E). simpl.
      rewrite logged_change_events. destruct (differs _ _); eauto.
      exists []. now rewrite app_nil_r.
    + rewrite (after_poll_fetch_failed _ _ _ E). simpl.
      rewrite add_event_events. eauto.
Qed.

Lemma run_events_grow (replies : list reply) :
  forall m m',
    run_from m replies = Some m' ->
    exists added, events (self m') = (events (self m) ++ added)%list.
Proof.
  induction replies as [| r rest IH]; intros m m'; simpl.
  - intros [= <-]. exists []. now rewrite app_nil_r.
  - destruct (step m r) as [m1 |] eqn:E; [| discriminate].
    intros H. destruct (step_events_grow _ _ _ E) as (a1 & H1).
    destruct (IH _ _ H) as (a2 & H2).
    exists (a1 ++ a2)%list. now rewrite H2, H1, app_assoc.
Qed.

Lemma add_event_quiet (now : datetime) (s msg : string) (w : BuildWatchDog) :
  Py.mem (notify_mode w) ["desktop"; "both"] = false ->
  snd (add_event now s msg w) = [].
Proof.
  intros H. rewrite add_event_sent, H. now rewrite andb_false_r.
Qed.

Lemma step_sent_quiet (m m' : machine) (r : reply) :
  Py.mem (notify_mode (self m)) ["desktop"; "both"] = false ->
  step m r = Some m' -> sent m' = sent m.
Proof.
  intros Hq. step_cases m r; try reflexivity.
  - destruct (usable info) as [d |] eqn:E.
    + now rewrite (after_initial_fetch_ok _ _ _ _ E).
    + now rewrite (after_initial_fetch_failed _ _ _ E).
  - destruct (usable info) as [d |] eqn:E.
    + rewrite (after_poll_fetch_ok _ _ _ _ E). simpl.
      unfold logged_change. destruct (differs _ _); simpl.
      * rewrite add_event_quiet by assumption. apply app_nil_r.
      * apply app_nil_r.
    + rewrite (after_poll_fetch_failed _ _ _ E). simpl.
      rewrite add_event_quiet by assumption. apply app_nil_r.
Qed.

Lemma run_sent_quiet (replies : list reply) :
  forall m m',
    Py.mem (notify_mode (self m)) ["desktop"; "both"] = false ->
    run_from m replies = Some m' -> sent m' = sent m.
Proof.
  induction replies as [| r rest IH]; intros m m' Hq; simpl.
  - now intros [= <-].
  - destruct (step m r) as [m1 |] eqn:E; [| discriminate].
    intros H. rewrite (IH m1 m'); [now apply (step_sent_quiet m m1 r) | | assumption].
    destruct (step_config _ _ _ E) as (_ & _ & ->). assumption.
Qed.

Lemma main_self (id : string) (iv : Z) (mode : string) :
  self (main id iv mode) = init id iv mode /\
  at_call (main id iv mode) = InitialFetch /\
  sent (main id iv mode) = [] /\
  live (main id iv mode) = [] /\
  fetches (main id iv mode) = 0%nat.
Proof. unfold main. destruct (iv <? 5); repeat split. Qed.

(** C2.  [add_event] calls the notifier (once, with the event's message)
    exactly when a status was recorded before, the new status differs
    from it, and the notify mode is ["desktop"] or ["both"]; otherwise it
    makes no call.  So the first event [run] records sends nothing in any
    mode, an object with no recorded status sends nothing, and a run in
    mode ["terminal"] never sends anything. *)
Theorem desktop_notification_rule :
  (forall now s msg w,
      (snd (add_event now s msg w) = [("BuildWatchDog", msg)] <->
       (exists prior, last_status w = Some prior /\ s <> prior) /\
       (notify_mode w = "desktop" \/ notify_mode w = "both")) /\
      (snd (add_event now s msg w) = [] <->
       ~ ((exists prior, last_status w = Some prior /\ s <> prior) /\
          (notify_mode w = "desktop" \/ notify_mode w = "both")))) /\
  (forall now s msg w,
      last_status w = None -> snd (add_event now s msg w) = []) /\
  (forall id iv mode now info m,
      step (main id iv mode) (Fetched now info) = Some m ->
      sent m = [] /\
      (info_truthy info = true -> List.length (events (self m)) = 1%nat)) /\
  (forall id iv replies m,
      run_from (main id iv "terminal") replies = Some m -> sent m = []).
Proof.
  split; [| split; [| split]].
  - intros now s msg w. rewrite add_event_sent.
    rewrite <- changed_and_recorded, <- mem_desktop_both.
    destruct (differs s (last_status w) && is_some (last_status w)),
             (Py.mem (notify_mode w) ["desktop"; "both"]); simpl;
      (split; split; try discriminate; try reflexivity; intuition discriminate).
  - intros now s msg w H. now rewrite add_event_sent, H.
  - intros id iv mode now info m.
    destruct (main_self id iv mode) as (Hself & Hat & Hsent & _).
    unfold step. rewrite Hat. intros [= <-].
    destruct (usable info) as [d |] eqn:E.
    + rewrite (after_initial_fetch_ok _ _ _ _ E). simpl.
      rewrite Hself. split; [assumption | reflexivity].
    + rewrite (after_initial_fetch_failed _ _ _ E). simpl.
      split; [assumption |]. apply usable_none in E. congruence.
  - intros id iv replies m H.
    destruct (main_self id iv "terminal") as (Hself & _ & Hsent & _).
    rewrite <- Hsent. apply (run_sent_quiet replies); [| assumption].
    now rewrite Hself.
Qed.

Lemma desktop_notification_rule_witness :
  snd (add_event 60 "SUCCEEDED" "Status changed to SUCCEEDED"
         (mkBuildWatchDog "demo:1" 10 "desktop" [] (Some "IN_PROGRESS") "demo"))
  = [("BuildWatchDog", "Status changed to SUCCEEDED")] /\
  snd (add_event 60 "SUCCEEDED" "Status changed to SUCCEEDED"
         (init "demo:1" 10 "both")) = [] /\
  sent (after_initial_fetch (main "demo:1" 10 "both") 60
          (Some (mkBuildInfo (Some "FAILED") None None None []))) = [] /\
  sent (after_poll_fetch
          (after_initial_fetch (main "demo:1" 10 "terminal") 60
             (Some (mkBuildInfo (Some "IN_PROGRESS") None None None [])))
          70 (Some (mkBuildInfo (Some "FAILED") None None None []))) = [].
Proof.
  destruct desktop_notification_rule as (Hrule & Hnone & Hfirst & Hterminal).
  split.
  { apply Hrule. split; [| left; reflexivity].
    exists "IN_PROGRESS". split; [reflexivity | discriminate]. }
  split; [apply Hnone; reflexivity |].
  split.
  { apply (proj1 (Hfirst "demo:1" 10 "both" 60
                    (Some (mkBuildInfo (Some "FAILED") None None None []))
                    _ eq_refl)). }
  apply (Hterminal "demo:1" 10
           [Fetched 60 (Some (mkBuildInfo (Some "IN_PROGRESS") None None None []));
            Fetched 70 (Some (mkBuildInfo (Some "FAILED") None None None []))]).
  reflexivity.
Defined.

(** C4.  [add_event] sets [last_status] to the new status exactly when a
    status was recorded before and the new one differs from it; with the
    same status, or with no recorded status, it leaves [last_status] as
    it was.  The notify mode has no part in this. *)
Theorem last_status_update_rule (now : datetime) (s msg : string)
    (w : BuildWatchDog) :
  ((exists prior, last_status w = Some prior /\ s <> prior) ->
   last_status (fst (add_event now s msg w)) = Some s) /\
  (last_status w = Some s ->
   last_status (fst (add_event now s msg w)) = Some s) /\
  (last_status w = None ->
   last_status (fst (add_event now s msg w)) = None) /\
  (~ (exists prior, last_status w = Some prior /\ s <> prior) ->
   last_status (fst (add_event now s msg w)) = last_status w) /\
  (forall mode,
      last_status (fst (add_event now s msg (set_notify_mode w mode)))
      = last_status (fst (add_event now s msg w))).
Proof.
  rewrite add_event_last_status.
  destruct (differs s (last_status w) && is_some (last_status w)) eqn:E.
  - pose proof (proj1 (changed_and_recorded s w) E) as (prior & Hp & Hne).
    repeat split; try congruence.
    + intros H. exfalso. apply H. eauto.
    + intros mode. rewrite add_event_last_status. simpl. now rewrite E.
  - assert (Hno : ~ (exists prior, last_status w = Some prior /\ s <> prior)).
    { intros H. apply changed_and_recorded in H. congruence. }
    repeat split; try congruence; try contradiction.
    intros mode. rewrite add_event_last_status. simpl. now rewrite E.
Qed.

Lemma last_status_update_rule_witness :
  last_status
    (fst (add_event 60 "FAILED" "Status changed to FAILED"
            (mkBuildWatchDog "demo:1" 10 "terminal" [] (Some "IN_PROGRESS") "demo")))
  = Some "FAILED" /\
  last_status
    (fst (add_event 60 "FAILED" "Status changed to FAILED"
            (init "demo:1" 10 "both")))
  = None.
Proof.
  split.
  - destruct (last_status_update_rule 60 "FAILED" "Status changed to FAILED"
                (mkBuildWatchDog "demo:1" 10 "terminal" []
                   (Some "IN_PROGRESS") "demo")) as (Hchanged & _).
    apply Hchanged.
    exists "IN_PROGRESS". split; [reflexivity | discriminate].
  - destruct (last_status_update_rule 60 "FAILED" "Status changed to FAILED"
                (init "demo:1" 10 "both")) as (_ & _ & Hnone & _).
    apply Hnone. reflexivity.
Defined.

Lemma app_one_neq {A : Type} (l : list A) (x : A) : (l ++ [x])%list <> l.
Proof.
  intros H. apply (f_equal (@List.length A)) in H.
  rewrite length_app in H. simpl in H. lia.
Qed.

Lemma step_poll_fetch (m : machine) (now : datetime) (info : option BuildInfo) :
  at_call m = PollFetch ->
  step m (Fetched now info) = Some (after_poll_fetch m now info).
Proof. intros H. unfold step. now rewrite H. Qed.

(** C3.  After a fetch of the loop that returned a build, the event log
    has grown by the event "Status changed to <status>" if and only if
    the fetched status differs from [last_status]; it is unchanged if and
    only if the two are equal. *)
Theorem transition_logged_iff_status_differs
    (m : machine) (now : datetime) (d : BuildInfo) :
  at_call m = PollFetch ->
  info_truthy (Some d) = true ->
  exists m',
    step m (Fetched now (Some d)) = Some m' /\
    (events (self m')
     = (events (self m) ++
        [mkBuildEvent now (get_default (buildStatus d) "UNKNOWN")
           ("Status changed to " ++ get_default (buildStatus d) "UNKNOWN")])%list
     <-> last_status (self m) <> Some (get_default (buildStatus d) "UNKNOWN")) /\
    (events (self m') = events (self m)
     <-> last_status (self m) = Some (get_default (buildStatus d) "UNKNOWN")).
Proof.
  intros Hat Hok.
  assert (E : usable (Some d) = Some d) by (apply usable_some; auto).
  exists (after_poll_fetch m now (Some d)).
  split; [now apply step_poll_fetch |].
  rewrite (after_poll_fetch_ok _ _ _ _ E). simpl.
  rewrite logged_change_events.
  destruct (differs _ (last_status (self m))) eqn:Hd.
  - apply differs_true_iff in Hd. split; split; try tauto.
    intros H. now apply app_one_neq in H.
  - apply differs_false_iff in Hd. split; split; try tauto; try congruence.
    intros H. symmetry in H. now apply app_one_neq in H.
Qed.

Lemma transition_logged_iff_status_differs_witness :
  exists m',
    step (after_initial_fetch (main "demo:1" 10 "both") 60
            (Some (mkBuildInfo (Some "IN_PROGRESS") (Some "demo") None None [])))
         (Fetched 70 (Some (mkBuildInfo (Some "SUCCEEDED") (Some "demo") None None [])))
    = Some m' /\
    List.length (events (self m')) = 2%nat.
Proof.
  destruct (transition_logged_iff_status_differs
              (after_initial_fetch (main "demo:1" 10 "both") 60
                 (Some (mkBuildInfo (Some "IN_PROGRESS") (Some "demo") None None [])))
              70 (mkBuildInfo (Some "SUCCEEDED") (Some "demo") None None [])
              eq_refl eq_refl) as (m' & Hstep & Hchanged & _).
  exists m'. split; [exact Hstep |].
  rewrite (proj2 Hchanged); [reflexivity | discriminate].
Defined.

(** ** Finalizing *)








(** ** The dashboard *)

Lemma last_n_length {A : Type} (n : nat) (l : list A) :
  (List.length (last_n n l) <= n)%nat.
Proof. unfold last_n. rewrite length_skipn. lia. Qed.

Lemma last_n_app {A : Type} (n : nat) (older recent : list A) :
  List.length recent = n -> last_n n (older ++ recent) = recent.
Proof.
  intros H. unfold last_n. rewrite length_app, H.
  replace (List.length older + n - n)%nat with (List.length older) by lia.
  rewrite skipn_app, skipn_all, Nat.sub_diag. reflexivity.
Qed.

Lemma last_n_short {A : Type} (n : nat) (l : list A) :
  (List.length l <= n)%nat -> last_n n l = l.
Proof.
  intros H. unfold last_n.
  replace (List.length l - n)%nat with 0%nat by lia. reflexivity.
Qed.

Lemma event_table_rows (w : BuildWatchDog) (info : BuildInfo) :
  events w <> [] ->
  event_table (create_display w info) = map event_line (last_n 8 (events w)).
Proof.
  intros H. unfold create_display. cbn [event_table].
  destruct (events w); [contradiction | reflexivity].
Qed.

(** C8.  The table of recent events never has more than 8 rows, and
    each row shows one event: its time of day and its message.  When the
    log ends with 8 events (so also whenever it holds more than 8), the
    table shows exactly those 8, in their order; a log of 1 to 8 events
    is shown whole.  The log itself only grows: [add_event] appends one
    event, and over any run the log at the start is a prefix of the log
    at the end. *)
Theorem recent_events_at_most_eight :
  (forall w info,
      (List.length (event_table (create_display w info)) <= 8)%nat) /\
  (forall w info older recent,
      events w = (older ++ recent)%list -> List.length recent = 8%nat ->
      event_table (create_display w info)
      = map (fun e => EventRow (strftime_HMS (timestamp e)) (message e))
            recent) /\
  (forall w info,
      (8 < List.length (events w))%nat ->
      List.length (event_table (create_display w info)) = 8%nat /\
      event_table (create_display w info)
      = map (fun e => EventRow (strftime_HMS (timestamp e)) (message e))
            (skipn (List.length (events w) - 8) (events w))) /\
  (forall w info,
      events w <> [] -> (List.length (events w) <= 8)%nat ->
      event_table (create_display w info)
      = map (fun e => EventRow (strftime_HMS (timestamp e)) (message e))
            (events w)) /\
  (forall now s msg w,
      events (fst (add_event now s msg w))
      = (events w ++ [mkBuildEvent now s msg])%list) /\
  (forall m replies m',
      run_from m replies = Some m' ->
      exists added, events (self m') = (events (self m) ++ added)%list).
Proof.
  split; [| split; [| split; [| split; [| split]]]].
  - intros w info. destruct (events w) as [| e l] eqn:E.
    + unfold create_display. cbn [event_table]. rewrite E. simpl. lia.
    + rewrite event_table_rows by congruence.
      rewrite length_map. apply last_n_length.
  - intros w info older recent H Hlen.
    rewrite event_table_rows.
    + now rewrite H, last_n_app.
    + rewrite H. destruct recent; [discriminate |].
      now destruct older.
  - intros w info Hlen.
    rewrite event_table_rows by (destruct (events w); [simpl in Hlen; lia | discriminate]).
    split; [| reflexivity].
    rewrite length_map. unfold last_n. rewrite length_skipn. lia.
  - intros w info Hne Hlen.
    rewrite event_table_rows by assumption. now rewrite last_n_short.
  - intros. apply add_event_events.
  - intros m replies m'. apply run_events_grow.
Qed.

Lemma recent_events_at_most_eight_witness :
  let e := fun n => mkBuildEvent n "IN_PROGRESS" "tick" in
  let w := mkBuildWatchDog "demo:1" 10 "both"
             [e 1; e 2; e 3; e 4; e 5; e 6; e 7; e 8; e 9; e 10]
             (Some "IN_PROGRESS") "demo" in
  event_table (create_display w empty_dict)
  = [EventRow "00:00:03" "tick"; EventRow "00:00:04" "tick";
     EventRow "00:00:05" "tick"; EventRow "00:00:06" "tick";
     EventRow "00:00:07" "tick"; EventRow "00:00:08" "tick";
     EventRow "00:00:09" "tick"; EventRow "00:00:10" "tick"].
Proof.
  intros e w.
  destruct recent_events_at_most_eight as (_ & Hrecent & _).
  rewrite (Hrecent w empty_dict [e 1; e 2]
             [e 3; e 4; e 5; e 6; e 7; e 8; e 9; e 10]); reflexivity.
Defined.

Lemma resolve_present (name s overall : string) :
  s <> "" -> resolve_phase_status name (Some s) overall = s.
Proof.
  intros H. unfold resolve_phase_status.
  destruct (String.eqb_spec s ""); [contradiction | reflexivity].
Qed.

Lemma resolve_missing (name overall : string) (st : option string) :
  st = None \/ st = Some "" ->
  resolve_phase_status name st overall
  = if (name == "COMPLETED") && (overall == "SUCCEEDED")
    then "SUCCEEDED" else "PENDING".
Proof. intros [-> | ->]; reflexivity. Qed.

Lemma timeline_rows (w : BuildWatchDog) (info : BuildInfo)
    (p : Phase) (ps : list Phase) :
  phases info = Some (p :: ps) ->
  timeline (create_display w info)
  = map (phase_row (get_default (buildStatus info) "UNKNOWN")) (p :: ps).
Proof. intros H. unfold create_display. cbn [timeline]. now rewrite H. Qed.

(** C5.  Every phase gets one row, in order, and the status shown in it
    is: the phase's own status when it is present (a status value of
    the service, so not the empty string, which line 177 takes as
    absent); otherwise "SUCCEEDED", drawn as succeeded, when the phase is
    named "COMPLETED" and the build status is "SUCCEEDED"; otherwise
    "PENDING", drawn as pending.  So a "COMPLETED" phase without status
    is drawn as succeeded under a "SUCCEEDED" build and as pending under
    an "IN_PROGRESS" build. *)
Theorem phase_status_resolution :
  (forall w info p ps,
      phases info = Some (p :: ps) ->
      timeline (create_display w info)
      = map (phase_row (get_default (buildStatus info) "UNKNOWN")) (p :: ps)) /\
  (forall overall phase s,
      phaseStatus phase = Some s -> s <> "" ->
      row_status (phase_row overall phase) = Some s /\
      phase_row overall phase
      = PhaseRow (fst (fst (phase_look s))) (snd (fst (phase_look s)))
                 (get_default (phaseType phase) "Unknown") s
                 (snd (phase_look s))) /\
  (forall overall phase,
      phaseStatus phase = None \/ phaseStatus phase = Some "" ->
      phaseType phase = Some "COMPLETED" -> overall = "SUCCEEDED" ->
      phase_row overall phase
      = PhaseRow "green" CheckMark "COMPLETED" "SUCCEEDED" "green") /\
  (forall overall phase,
      phaseStatus phase = None \/ phaseStatus phase = Some "" ->
      phaseType phase <> Some "COMPLETED" \/ overall <> "SUCCEEDED" ->
      phase_row overall phase
      = PhaseRow "dim" HollowCircle
                 (get_default (phaseType phase) "Unknown") "PENDING" "dim") /\
  phase_row "SUCCEEDED" (mkPhase (Some "COMPLETED") None)
  = PhaseRow "green" CheckMark "COMPLETED" "SUCCEEDED" "green" /\
  phase_row "IN_PROGRESS" (mkPhase (Some "COMPLETED") None)
  = PhaseRow "dim" HollowCircle "COMPLETED" "PENDING" "dim".
Proof.
  split; [exact timeline_rows |].
  split; [| split; [| split; [| split; reflexivity]]].
  - intros overall phase s Hs Hne. unfold phase_row.
    rewrite Hs, resolve_present by assumption.
    destruct (phase_look s) as [[c i] y]. now split.
  - intros overall phase Hst Hname ->. unfold phase_row.
    rewrite Hname, (resolve_missing _ _ _ Hst). reflexivity.
  - intros overall phase Hst Hnot. unfold phase_row.
    rewrite (resolve_missing _ _ _ Hst).
    destruct ((get_default (phaseType phase) "Unknown" == "COMPLETED")
              && (overall == "SUCCEEDED")) eqn:E; [| reflexivity].
    apply andb_true_iff in E. destruct E as (E1 & E2).
    apply String.eqb_eq in E1, E2. exfalso.
    destruct Hnot as [Hn | Hn]; [| contradiction].
    apply Hn. destruct (phaseType phase) as [t |]; simpl in E1;
      [congruence | discriminate].
Qed.

Lemma phase_status_resolution_witness :
  phase_row "IN_PROGRESS" (mkPhase (Some "BUILD") (Some "FAILED"))
  = PhaseRow "red" CrossMark "BUILD" "FAILED" "red" /\
  phase_row "SUCCEEDED" (mkPhase (Some "COMPLETED") (Some ""))
  = PhaseRow "green" CheckMark "COMPLETED" "SUCCEEDED" "green" /\
  phase_row "SUCCEEDED" (mkPhase (Some "BUILD") None)
  = PhaseRow "dim" HollowCircle "BUILD" "PENDING" "dim".
Proof.
  destruct phase_status_resolution as (_ & Hown & Hdone & Hpending & _).
  split; [apply (Hown "IN_PROGRESS" (mkPhase (Some "BUILD") (Some "FAILED")) "FAILED");
          [reflexivity | discriminate] |].
  split; [apply Hdone; [right; reflexivity | reflexivity | reflexivity] |].
  apply (Hpending "SUCCEEDED" (mkPhase (Some "BUILD") None));
    [left; reflexivity | left; discriminate].
Defined.

(** Line 177, [if not phase_status], takes an empty status as an absent
    one (its comment: "Handle None or empty status"): such a phase is
    shown as pending. *)
Example empty_phase_status_not_used :
  phaseStatus (mkPhase (Some "BUILD") (Some "")) = Some "" /\
  phase_row "IN_PROGRESS" (mkPhase (Some "BUILD") (Some ""))
  = PhaseRow "dim" HollowCircle "BUILD" "PENDING" "dim" /\
  row_status (phase_row "IN_PROGRESS" (mkPhase (Some "BUILD") (Some "")))
  <> phaseStatus (mkPhase (Some "BUILD") (Some "")).
Proof. repeat split. discriminate. Qed.

(** ** Exit status *)



Lemma run_config (replies : list reply) :
  forall m m',
    run_from m replies = Some m' ->
    build_id (self m') = build_id (self m) /\
    interval (self m') = interval (self m) /\
    notify_mode (self m') = notify_mode (self m).
Proof.
  induction replies as [| r rest IH]; intros m m'; simpl.
  - intros [= <-]. repeat split.
  - destruct (step m r) as [m1 |] eqn:E; [| discriminate].
    intros H. destruct (IH _ _ H) as (-> & -> & ->).
    now apply step_config in E.
Qed.







(** What the premises of the exit rule leave out.  Each of these ends
    the process with a traceback and exit status 1 although the initial
    fetch succeeded, or before it was made: a sleep of more than
    [max_sleep] seconds, a fetch of the loop that raises, and a build id
    the console cannot print. *)
Example huge_interval_ends_with_1 :
  let building := Some (mkBuildInfo (Some "IN_PROGRESS") (Some "demo") None None []) in
  option_map (fun m => (at_call m, fetches m))
    (run_from (main "demo:1" 10000000000 "both")
       [Fetched 60 building; Fetched 61 building; SleepOverflowError])
  = Some (Halted (Uncaught
            "OverflowError: timestamp too large to convert to C _PyTime_t"),
          2%nat).
Proof. reflexivity. Qed.

Example raising_poll_ends_with_1 :
  let building := Some (mkBuildInfo (Some "IN_PROGRESS") (Some "demo") None None []) in
  option_map (fun m => exit_code_of (at_call m))
    (run_from (main "demo:1" 10 "both")
       [Fetched 60 building; FetchRaised "MarkupError"])
  = Some (Some 1).
Proof. reflexivity. Qed.

Example unprintable_build_id_ends_with_1 :
  at_call (main_on sample_print_raises "demo[/bold]" 10 "both")
  = Halted (Uncaught (str_e (markup_error "[/bold]" 27))) /\
  fetches (main_on sample_print_raises "demo[/bold]" 10 "both") = 0%nat.
Proof. split; reflexivity. Qed.

(** A negative interval is accepted by [main] and makes the first sleep
    of the loop raise: the process ends with a traceback and exit status
    1 although the initial fetch succeeded. *)
Example negative_interval_ends_with_1 :
  let building := Some (mkBuildInfo (Some "IN_PROGRESS") (Some "demo") None None []) in
  option_map at_call
    (run_from (main "demo:1" (-1) "both")
       [Fetched 60 building; Fetched 61 building; SleepValueError])
  = Some (Halted (Uncaught "ValueError: sleep length must be non-negative")).
Proof. reflexivity. Qed.

(** ** A failed fetch and the status mark *)

Lemma add_event_keeps_recorded (now : datetime) (s msg : string)
    (w : BuildWatchDog) :
  is_some (last_status w) = true ->
  is_some (last_status (fst (add_event now s msg w))) = true.
Proof.
  intros H. rewrite add_event_last_status.
  now destruct (differs s (last_status w) && is_some (last_status w)).
Qed.

Lemma step_recorded (m m' : machine) (r : reply) :
  (in_loop (at_call m) = true -> is_some (last_status (self m)) = true) ->
  step m r = Some m' ->
  in_loop (at_call m') = true -> is_some (last_status (self m')) = true.
Proof.
  intros Hinv. step_cases m r; cbn [in_loop] in Hinv;
    try (intros _; now apply Hinv); try discriminate.
  - destruct (usable info) as [d |] eqn:E.
    + now rewrite (after_initial_fetch_ok _ _ _ _ E).
    + now rewrite (after_initial_fetch_failed _ _ _ E).
  - intros _. specialize (Hinv eq_refl).
    destruct (usable info) as [d |] eqn:E.
    + rewrite (after_poll_fetch_ok _ _ _ _ E). cbn [self].
      unfold logged_change. destruct (differs _ _); [| assumption].
      now apply add_event_keeps_recorded.
    + rewrite (after_poll_fetch_failed _ _ _ E). cbn [self].
      now apply add_event_keeps_recorded.
Qed.

Lemma run_recorded (replies : list reply) :
  forall m m',
    (in_loop (at_call m) = true -> is_some (last_status (self m)) = true) ->
    run_from m replies = Some m' ->
    in_loop (at_call m') = true -> is_some (last_status (self m')) = true.
Proof.
  induction replies as [| r rest IH]; intros m m' Hinv; simpl.
  - now intros [= <-].
  - destruct (step m r) as [m1 |] eqn:E; [| discriminate].
    apply IH. now apply (step_recorded m m1 r).
Qed.

Lemma add_error_last_status (now : datetime) (msg : string) (w : BuildWatchDog) :
  is_some (last_status w) = true ->
  last_status (fst (add_event now "ERROR" msg w)) = Some "ERROR".
Proof.
  intros H. rewrite add_event_last_status, H, andb_true_r.
  destruct (differs "ERROR" (last_status w)) eqn:E; [reflexivity |].
  now apply differs_false_iff.
Qed.

(** C9.  At any fetch of the loop, in any run: a fetch that gives
    nothing usable logs an event with status "ERROR" and leaves
    [last_status] at "ERROR".  When the sleep is over and the next fetch
    returns a build whose status is not the string "ERROR", the event
    "Status changed to <status>" is logged, [last_status] becomes that
    status, and in mode ["desktop"] or ["both"] the notifier is called
    with that message; this holds whatever [last_status] was before the
    failure, so also when it was the very same status. *)
Theorem failed_fetch_forces_transition (id : string) (iv : Z) (mode : string)
    (replies : list reply) (m : machine) (now : datetime)
    (bad : option BuildInfo) :
  0 <= iv ->
  run_from (main id iv mode) replies = Some m ->
  at_call m = PollFetch ->
  info_truthy bad = false ->
  exists m1,
    step m (Fetched now bad) = Some m1 /\
    events (self m1)
    = (events (self m) ++
       [mkBuildEvent now "ERROR" "Failed to fetch build info"])%list /\
    last_status (self m1) = Some "ERROR" /\
    forall now' d,
      info_truthy (Some d) = true ->
      get_default (buildStatus d) "UNKNOWN" <> "ERROR" ->
      exists m3,
        run_from m1 [Slept; Fetched now' (Some d)] = Some m3 /\
        events (self m3)
        = (events (self m1) ++
           [mkBuildEvent now' (get_default (buildStatus d) "UNKNOWN")
              ("Status changed to "
               ++ get_default (buildStatus d) "UNKNOWN")%string])%list /\
        last_status (self m3) = Some (get_default (buildStatus d) "UNKNOWN") /\
        (mode = "desktop" \/ mode = "both" ->
         sent m3
         = (sent m1 ++
            [("BuildWatchDog",
              ("Status changed to "
               ++ get_default (buildStatus d) "UNKNOWN")%string)])%list).
Proof.
  intros Hiv Hrun Hat Hbad.
  destruct (main_self id iv mode) as (Hself & Hat0 & _).
  assert (Hrec : is_some (last_status (self m)) = true).
  { apply (run_recorded replies (main id iv mode) m); [| assumption |].
    - rewrite Hat0. discriminate.
    - now rewrite Hat. }
  destruct (run_config _ _ _ Hrun) as (_ & Hint & Hmode).
  rewrite Hself in Hint, Hmode. simpl in Hint, Hmode.
  apply usable_none in Hbad.
  exists (after_poll_fetch m now bad).
  split; [now apply step_poll_fetch |].
  rewrite (after_poll_fetch_failed _ _ _ Hbad). cbn [self sent].
  set (logged := add_event now "ERROR" "Failed to fetch build info" (self m)).
  assert (Hlast : last_status (fst logged) = Some "ERROR")
    by now apply add_error_last_status.
  destruct (add_event_frame now "ERROR" "Failed to fetch build info" (self m))
    as (_ & Hint1 & Hmode1 & _).
  fold logged in Hint1, Hmode1.
  split; [apply add_event_events |]. split; [exact Hlast |].
  intros now' d Hok Hcur.
  assert (E : usable (Some d) = Some d) by (apply usable_some; auto).
  set (cur := get_default (buildStatus d) "UNKNOWN") in *.
  cbn [run_from]. unfold step at 1. cbn [at_call self].
  rewrite Hint1, Hint. apply Z.leb_le in Hiv. rewrite Hiv.
  unfold step. cbn [goto at_call].
  eexists. split; [reflexivity |].
  rewrite (after_poll_fetch_ok _ _ _ _ E). cbn [self sent goto].
  fold cur. unfold logged_change. rewrite Hlast.
  assert (Hd : differs cur (Some "ERROR") = true)
    by (apply differs_true_iff; congruence).
  rewrite Hd.
  split; [apply add_event_events |].
  split.
  - rewrite add_event_last_status, Hlast, Hd. reflexivity.
  - intros Hm. rewrite add_event_sent, Hlast, Hd, Hmode1, Hmode.
    apply mem_desktop_both in Hm. now rewrite Hm.
Qed.

Lemma failed_fetch_forces_transition_witness :
  let building := mkBuildInfo (Some "IN_PROGRESS") (Some "demo") None None [] in
  let started :=
    after_initial_fetch (main "demo:1" 10 "both") 60 (Some building) in
  exists m3,
    run_from (after_poll_fetch started 70 None)
      [Slept; Fetched 80 (Some building)] = Some m3 /\
    map message (events (self m3))
    = ["Started monitoring - IN_PROGRESS"; "Failed to fetch build info";
       "Status changed to IN_PROGRESS"] /\
    sent m3 = [("BuildWatchDog", "Failed to fetch build info");
               ("BuildWatchDog", "Status changed to IN_PROGRESS")].
Proof.
  intros building started.
  destruct (failed_fetch_forces_transition "demo:1" 10 "both"
              [Fetched 60 (Some building)] started
              70 None ltac:(lia) eq_refl eq_refl eq_refl)
    as (m1 & Hstep & Hev1 & _ & Hnext).
  rewrite step_poll_fetch in Hstep by reflexivity.
  injection Hstep as <-.
  destruct (Hnext 80 building eq_refl ltac:(discriminate))
    as (m3 & Hrun & Hev3 & _ & Hsent).
  exists m3. split; [exact Hrun |]. split.
  - rewrite Hev3. reflexivity.
  - rewrite Hsent by (right; reflexivity). reflexivity.
Defined.

(** ** The scenarios of the specification *)

(** A first fetch with status "IN_PROGRESS", project "demo" and two
    phases: one event is logged and the dashboard shows two phase rows,
    one succeeded and one in progress. *)
Example scenario_first_fetch :
  let info :=
    mkBuildInfo (Some "IN_PROGRESS") (Some "demo") None
      (Some [mkPhase (Some "SUBMITTED") (Some "SUCCEEDED");
             mkPhase (Some "BUILD") (Some "IN_PROGRESS")]) [] in
  exists m,
    run_from (main "demo:1" 10 "both") [Fetched 3661 (Some info)] = Some m /\
    events (self m)
    = [mkBuildEvent 3661 "IN_PROGRESS" "Started monitoring - IN_PROGRESS"] /\
    map timeline (live m)
    = [[PhaseRow "green" CheckMark "SUBMITTED" "SUCCEEDED" "green";
        PhaseRow "yellow" Hourglass "BUILD" "IN_PROGRESS" "yellow"]] /\
    map event_table (live m)
    = [[EventRow "01:01:01" "Started monitoring - IN_PROGRESS"]].
Proof. intros info. eexists. split; [reflexivity |]. repeat split. Qed.

(** A second fetch with status "SUCCEEDED": one transition event, one
    confirming fetch, the summary line, and the process ends with 0. *)
Example scenario_second_fetch_succeeded :
  let building := mkBuildInfo (Some "IN_PROGRESS") (Some "demo") None None [] in
  let done := mkBuildInfo (Some "SUCCEEDED") (Some "demo") None None [] in
  exists m,
    run_from (main "demo:1" 10 "both")
      [Fetched 60 (Some building); Fetched 70 (Some done); Slept;
       Fetched 73 (Some done)] = Some m /\
    map message (events (self m))
    = ["Started monitoring - IN_PROGRESS"; "Status changed to SUCCEEDED"] /\
    fetches m = 3%nat /\
    at_call m = Halted RunReturned /\
    last (console m) "" = (nl ++ "[bold]Build SUCCEEDED![/bold]")%string.
Proof. intros building done. eexists. split; [reflexivity |]. repeat split. Qed.

(** A fetch that exits with 1 and an error text about credentials is
    reported as invalid credentials and gives [None]; the loop logs the
    failure and goes to sleep. *)
Example scenario_credentials_error :
  get_build_info sample_loads "demo:1"
    (Completed 1 "" "Unable to locate credentials. You can configure credentials by running 'aws configure'.")
  = (Some InvalidCredentials, None) /\
  let building := mkBuildInfo (Some "IN_PROGRESS") (Some "demo") None None [] in
  exists m,
    run_from (main "demo:1" 10 "both")
      [Fetched 60 (Some building); Fetched 70 None] = Some m /\
    map message (events (self m))
    = ["Started monitoring - IN_PROGRESS"; "Failed to fetch build info"] /\
    at_call m = IntervalSleep.
Proof. split; [reflexivity |]. eexists. split; [reflexivity |]. repeat split. Qed.

(** An interval of 3 prints the warning once, before [run] starts, and
    is used as it is. *)
Example scenario_short_interval :
  console (main "demo:1" 3 "both")
  = ["[yellow]Warning: Interval less than 5 seconds may cause rate limiting.[/yellow]";
     "[cyan]Starting BuildWatchDog...[/cyan]";
     ("[dim]Monitoring build: demo:1[/dim]" ++ nl)%string] /\
  interval (self (main "demo:1" 3 "both")) = 3.
Proof. split; reflexivity. Qed.

(** * Further properties of the script *)

(** ** Python strings: case and white space *)

Lemma lower_char_idempotent (c : ascii) :
  Py.lower_char (Py.lower_char c) = Py.lower_char c.
Proof. destruct c as [[] [] [] [] [] [] [] []]; reflexivity. Qed.

Lemma is_space_lower_char (c : ascii) :
  Py.is_space (Py.lower_char c) = Py.is_space c.
Proof. destruct c as [[] [] [] [] [] [] [] []]; reflexivity. Qed.

Lemma lower_idempotent (s : string) : Py.lower (Py.lower s) = Py.lower s.
Proof.
  induction s as [| c s IH]; simpl; [reflexivity |].
  now rewrite lower_char_idempotent, IH.
Qed.

Lemma lower_app (a b : string) :
  Py.lower (a ++ b) = Py.lower a ++ Py.lower b.
Proof. induction a as [| c a IH]; simpl; [reflexivity | now rewrite IH]. Qed.

Lemma lstrip_lower (s : string) : Py.lstrip (Py.lower s) = Py.lower (Py.lstrip s).
Proof.
  induction s as [| c s IH]; simpl; [reflexivity |].
  rewrite is_space_lower_char. now destruct (Py.is_space c).
Qed.

Lemma rstrip_lower (s : string) : Py.rstrip (Py.lower s) = Py.lower (Py.rstrip s).
Proof.
  induction s as [| c s IH]; simpl; [reflexivity |].
  rewrite IH, is_space_lower_char.
  destruct (Py.rstrip s); simpl; [now destruct (Py.is_space c) | reflexivity].
Qed.

Lemma strip_lower (s : string) : Py.strip (Py.lower s) = Py.lower (Py.strip s).
Proof. unfold Py.strip. now rewrite lstrip_lower, rstrip_lower. Qed.

Lemma lower_app_inv (x y : string) :
  forall k,
    Py.lower k = x ++ y ->
    exists kx ky, k = kx ++ ky /\ Py.lower kx = x /\ Py.lower ky = y.
Proof.
  induction x as [| c x IH]; intros k H.
  - exists "", k. now repeat split.
  - destruct k as [| d k]; [discriminate |]. simpl in H.
    injection H as Hc Hk. destruct (IH _ Hk) as (kx & ky & -> & Hx & Hy).
    exists (String d kx), ky. simpl. now rewrite Hc, Hx.
Qed.

Lemma prefix_app (n b : string) : String.prefix n (n ++ b) = true.
Proof.
  induction n as [| c n IH]; simpl; [now destruct b |].
  destruct (ascii_dec c c); [assumption | contradiction].
Qed.

Lemma contains_prefix (n h : string) :
  String.prefix n h = true -> Py.contains n h = true.
Proof. intros H. destruct h; cbn [Py.contains]; now rewrite H. Qed.

Lemma contains_app (n a b : string) : Py.contains n (a ++ n ++ b) = true.
Proof.
  induction a as [| c a IH].
  - change ("" ++ n ++ b) with (n ++ b). apply contains_prefix, prefix_app.
  - change (String c a ++ n ++ b) with (String c (a ++ n ++ b)).
    cbn [Py.contains]. rewrite IH. apply orb_true_r.
Qed.

Lemma lstrip_app_keep (a rest : string) (c : ascii) :
  Py.is_space c = false ->
  exists a', Py.lstrip (a ++ String c rest) = a' ++ String c rest.
Proof.
  intros Hc. induction a as [| d a IH]; simpl.
  - rewrite Hc. now exists "".
  - destruct (Py.is_space d); [assumption |].
    now exists (String d a).
Qed.

Lemma rstrip_last_keep (l : ascii) (y : string) :
  Py.is_space l = false ->
  Py.rstrip (String l y) = String l (Py.rstrip y).
Proof.
  intros Hl. simpl. destruct (Py.rstrip y); [now rewrite Hl | reflexivity].
Qed.

Lemma rstrip_app_keep (x y : string) (l : ascii) :
  Py.is_space l = false ->
  Py.rstrip (x ++ String l y) = x ++ String l (Py.rstrip y).
Proof.
  intros Hl. induction x as [| c x IH].
  - now apply rstrip_last_keep.
  - simpl. rewrite IH. now destruct x.
Qed.

Lemma app_string_assoc (a b c : string) : (a ++ b) ++ c = a ++ (b ++ c).
Proof. induction a as [| x a IH]; simpl; [reflexivity | now rewrite IH]. Qed.

(** A phrase that begins and ends with a character that is no white
    space survives [strip] and [lower] wherever it stands, in any case. *)
Lemma phrase_survives (c l : ascii) (mid a k b : string) :
  Py.is_space c = false -> Py.is_space l = false ->
  Py.lower k = String c (mid ++ String l "") ->
  Py.contains (String c (mid ++ String l ""))
    (Py.lower (Py.strip (a ++ k ++ b))) = true.
Proof.
  intros Hc Hl Hk.
  destruct k as [| c0 k]; [discriminate |]. simpl in Hk.
  injection Hk as Hc0 Hk.
  destruct (lower_app_inv _ _ _ Hk) as (k0 & kl & -> & Hk0 & Hkl).
  destruct kl as [| l0 [| ? ?]]; try discriminate. simpl in Hkl.
  injection Hkl as Hl0.
  assert (Hc0s : Py.is_space c0 = false)
    by (rewrite <- is_space_lower_char, Hc0; assumption).
  assert (Hl0s : Py.is_space l0 = false)
    by (rewrite <- is_space_lower_char, Hl0; assumption).
  unfold Py.strip.
  destruct (lstrip_app_keep a ((k0 ++ String l0 "") ++ b) c0 Hc0s) as (a' & Ha).
  change (a ++ String c0 (k0 ++ String l0 "") ++ b)
    with (a ++ String c0 ((k0 ++ String l0 "") ++ b)).
  rewrite Ha.
  rewrite (app_string_assoc k0 (String l0 "") b). simpl.
  replace (a' ++ String c0 (k0 ++ String l0 b))
    with ((a' ++ String c0 k0) ++ String l0 b)
    by (rewrite app_string_assoc; reflexivity).
  rewrite rstrip_app_keep by assumption.
  rewrite app_string_assoc. simpl.
  rewrite lower_app. simpl. rewrite lower_app. simpl.
  rewrite Hc0, Hk0, Hl0.
  replace (String c (mid ++ String l (Py.lower (Py.rstrip b))))
    with (String c (mid ++ String l "") ++ Py.lower (Py.rstrip b))
    by (simpl; rewrite app_string_assoc; reflexivity).
  apply contains_app.
Qed.

(** ** The fetcher: reporting *)

Section ReportingFacts.

Variable json_loads : string -> exn + json.
Variable print_raises : string -> option exn.
Variable build_id : string.

Local Abbreviation fetch_try := (get_build_info_try json_loads build_id).
Local Abbreviation fetch_on :=
  (get_build_info_on json_loads print_raises build_id).

(** The [try] block prints only on its way to [return None]. *)
Lemma try_printed (o : run_outcome) (d : diagnostic) (r : exn + option json) :
  fetch_try o = (Some d, r) -> r = inr None.
Proof.
  unfold get_build_info_try. destruct o as [rc out err | e]; [| discriminate].
  destruct (negb (rc =? 0)); [now intros [= _ <-] |].
  destruct (json_loads out) as [e | data]; [discriminate |].
  destruct (py_get data "builds") as [e | builds]; [discriminate |].
  destruct (negb (truthy builds)); [now intros [= _ <-] |].
  destruct (py_first builds); discriminate.
Qed.

(** It returns [None] without a line only for a first build that is
    JSON [null]. *)
Lemma try_silent_none (o : run_outcome) :
  fetch_try o = (None, inr None) ->
  exists out err items rest,
    o = Completed 0 out err /\
    json_loads out = inr (JObj items) /\
    assoc "builds" items = Some (JArr (JNull :: rest)).
Proof.
  unfold get_build_info_try. destruct o as [rc out err | e]; [| discriminate].
  destruct (rc =? 0) eqn:Hrc; [| discriminate]. apply Z.eqb_eq in Hrc. subst rc.
  cbn [negb].
  destruct (json_loads out) as [e | data] eqn:Hd; [discriminate |].
  destruct data as [| b | n | x | s | l | items]; try discriminate.
  cbn [py_get]. destruct (assoc "builds" items) as [w |] eqn:Hb.
  - cbn [get_default].
    destruct (negb (truthy w)) eqn:Ht; [discriminate |].
    destruct w as [| b | n | x | [| c s] | [| b l] | p]; try discriminate.
    simpl. destruct b; try discriminate. intros _.
    now exists out, err, items, l.
  - discriminate.
Qed.

Lemma handler_not_warning (e : exn) (asked : string) :
  handler e <> BuildNotFound asked.
Proof. unfold handler. destruct (cls e); discriminate. Qed.

(** The line chosen by the [try] block is the line of [get_build_info]
    on a console that prints. *)
Lemma try_line (o : run_outcome) (asked : string) :
  fst (get_build_info json_loads build_id o) = Some (BuildNotFound asked) <->
  fetch_try o = (Some (BuildNotFound asked), inr None).
Proof.
  unfold get_build_info.
  destruct (fetch_try o) as [p [e | value]] eqn:E.
  - simpl. split.
    + intros [= H]. now apply handler_not_warning in H.
    + discriminate.
  - simpl. split.
    + intros ->. now rewrite (try_printed _ _ _ E).
    + now intros [= -> _].
Qed.

Lemma fetch_on_line (o : run_outcome) (d : diagnostic) :
  fst (fetch_on o) = Some d ->
  snd (fetch_on o) = inr None /\ print_raises (render d) = None /\
  (fetch_try o = (Some d, inr None) \/ exists e, d = handler e).
Proof.
  unfold get_build_info_on, report.
  destruct (fetch_try o) as [[d0 |] [e | value]] eqn:E.
  - destruct (print_raises (render (handler e))) eqn:P; [discriminate |].
    intros [= <-]. eauto.
  - pose proof (try_printed _ _ _ E) as [= ->].
    destruct (print_raises (render d0)) as [e |] eqn:P.
    + destruct (print_raises (render (handler e))) eqn:P'; [discriminate |].
      intros [= <-]. eauto.
    + intros [= <-]. auto.
  - destruct (print_raises (render (handler e))) eqn:P; [discriminate |].
    intros [= <-]. eauto.
  - discriminate.
Qed.

Lemma fetch_on_silent_none (o : run_outcome) :
  fetch_on o = (None, inr None) -> fetch_try o = (None, inr None).
Proof.
  unfold get_build_info_on, report.
  destruct (fetch_try o) as [[d0 |] [e | value]].
  - destruct (print_raises (render (handler e))); discriminate.
  - destruct (print_raises (render d0)) as [e |]; [| discriminate].
    destruct (print_raises (render (handler e))); discriminate.
  - destruct (print_raises (render (handler e))); discriminate.
  - now intros [= ->].
Qed.

End ReportingFacts.

Lemma of_document_not_found (build_id asked : string) (data : json) :
  fst (of_document build_id data) = Some (BuildNotFound asked) ->
  asked = build_id /\
  exists items,
    data = JObj items /\
    truthy (get_default (assoc "builds" items) JNull) = false.
Proof.
  destruct data as [| b | n | x | s | l | items]; try discriminate.
  simpl. intros H.
  enough (asked = build_id /\
          truthy (get_default (assoc "builds" items) JNull) = false)
    by (split; [tauto | exists items; tauto]).
  destruct (assoc "builds" items) as [w |]; simpl in *;
    [| injection H as ->; auto].
  destruct w as [| [] | n | x | [| c s] | [| b l] | [| p l]];
    simpl in *; try discriminate; try (injection H as ->; auto; fail).
  - destruct (n =? 0); simpl in *; [injection H as ->; auto | discriminate].
  - destruct (Qeq_bool x 0); simpl in *; [injection H as ->; auto | discriminate].
Qed.

(** The warning of line 81 is chosen exactly for a zero exit with a JSON
    object whose ["builds"] entry is missing or false. *)
Lemma warning_chosen_iff (json_loads : string -> exn + json)
    (build_id asked : string) (o : run_outcome) :
  fst (get_build_info json_loads build_id o) = Some (BuildNotFound asked) <->
  asked = build_id /\
  exists out err items,
    o = Completed 0 out err /\
    json_loads out = inr (JObj items) /\
    truthy (get_default (assoc "builds" items) JNull) = false.
Proof.
  split.
  - destruct o as [rc out err | e].
    + destruct (Z.eq_dec rc 0) as [-> | Hrc].
      * destruct (json_loads out) as [e | data] eqn:E.
        -- rewrite (fetch_undecodable _ _ _ _ _ E). simpl. unfold handler.
           destruct (cls e); discriminate.
        -- rewrite (fetch_decoded _ _ _ _ _ E). intros H.
           destruct (of_document_not_found _ _ _ H) as (-> & items & -> & Hf).
           split; [reflexivity |]. now exists out, err, items.
      * rewrite (fetch_nonzero_exit _ _ _ _ _ Hrc). simpl.
        unfold classify_error.
        destruct (Py.contains "could not be found" _); [discriminate |].
        destruct (Py.contains "credentials" _); [discriminate |].
        destruct (Py.contains "expired" _); discriminate.
    + simpl. unfold handler. destruct (cls e); discriminate.
  - intros (-> & out & err & items & -> & Hd & Hf).
    rewrite (fetch_decoded _ _ _ _ _ Hd). simpl.
    destruct (assoc "builds" items) as [w |]; simpl in *; [| reflexivity].
    destruct w as [| [] | n | x | [| c s] | [| b l] | [| p l]];
      simpl in *; try discriminate; try reflexivity.
    + destruct (n =? 0); [reflexivity | discriminate].
    + destruct (Qeq_bool x 0); [reflexivity | discriminate].
Qed.

(** X1.  On a console whose [print] can raise, [get_build_info] reports
    as follows.  A line that was printed means [None] was returned, and
    the console accepted the line.  When [None] is returned, a line was
    printed, except for one case: the command exited with zero and the
    first element of ["builds"] is JSON [null], which is returned as it
    is, without a line.  An exception leaves [get_build_info] only from
    the [print] of an [except] clause, and then no line was printed. *)
Theorem failure_is_reported (json_loads : string -> exn + json)
    (print_raises : string -> option exn)
    (build_id : string) (o : run_outcome) :
  (forall d,
      fst (get_build_info_on json_loads print_raises build_id o) = Some d ->
      snd (get_build_info_on json_loads print_raises build_id o) = inr None /\
      print_raises (render d) = None) /\
  (snd (get_build_info_on json_loads print_raises build_id o) = inr None ->
   (exists d,
       fst (get_build_info_on json_loads print_raises build_id o) = Some d) \/
   (exists out err items rest,
       o = Completed 0 out err /\
       json_loads out = inr (JObj items) /\
       assoc "builds" items = Some (JArr (JNull :: rest)))) /\
  (forall e,
      snd (get_build_info_on json_loads print_raises build_id o) = inl e ->
      fst (get_build_info_on json_loads print_raises build_id o) = None /\
      exists e0, print_raises (render (handler e0)) = Some e).
Proof.
  split; [| split].
  - intros d H. destruct (fetch_on_line _ _ _ _ _ H) as (Hn & Hp & _).
    now split.
  - destruct (get_build_info_on json_loads print_raises build_id o)
      as [[d |] r] eqn:E; simpl.
    + intros _. left. eauto.
    + intros ->. right.
      apply (try_silent_none json_loads build_id).
      now apply (fetch_on_silent_none json_loads print_raises).
  - intros e H.
    destruct (get_build_info_on json_loads print_raises build_id o)
      as [p r] eqn:E.
    simpl in H. subst r. simpl.
    now apply (fetch_on_escapes json_loads print_raises build_id o).
Qed.

Lemma failure_is_reported_witness :
  snd (get_build_info_on sample_loads sample_print_raises "demo:1"
         (Completed 255 "" "boom")) = inr None /\
  sample_print_raises (render (CliError "boom")) = None.
Proof.
  destruct (failure_is_reported sample_loads sample_print_raises "demo:1"
              (Completed 255 "" "boom")) as (Hline & _).
  apply (Hline (CliError "boom")). reflexivity.
Defined.

(** A first build that is [null] gives [None] and no line. *)
Example null_build_is_silent :
  get_build_info_on sample_loads sample_print_raises "demo:1"
    (Completed 0 doc_null_build "")
  = (None, inr None).
Proof. reflexivity. Qed.

(** X2.  The warning "Build ID ... not found" is printed exactly when
    the command exited with zero and printed a JSON object whose
    ["builds"] entry is missing or false ([null], [false], [0], [""],
    [[]] or [{}]), and the console accepts the line, which quotes the
    build id; the warning always names the build id that was asked
    for. *)
Theorem build_not_found_iff (json_loads : string -> exn + json)
    (print_raises : string -> option exn)
    (build_id asked : string) (o : run_outcome) :
  fst (get_build_info_on json_loads print_raises build_id o)
  = Some (BuildNotFound asked) <->
  asked = build_id /\
  print_raises (render (BuildNotFound build_id)) = None /\
  exists out err items,
    o = Completed 0 out err /\
    json_loads out = inr (JObj items) /\
    truthy (get_default (assoc "builds" items) JNull) = false.
Proof.
  split.
  - intros H. destruct (fetch_on_line _ _ _ _ _ H) as (_ & Hp & [Ht | (e & He)]).
    + apply try_line, warning_chosen_iff in Ht. destruct Ht as (-> & Ht).
      auto.
    + symmetry in He. now apply handler_not_warning in He.
  - intros (-> & Hp & Ho).
    assert (Ht : get_build_info_try json_loads build_id o
                 = (Some (BuildNotFound build_id), inr None))
      by (apply try_line, warning_chosen_iff; auto).
    unfold get_build_info_on. now rewrite Ht, Hp.
Qed.

Lemma build_not_found_iff_witness :
  fst (get_build_info_on sample_loads sample_print_raises "demo:1"
         (Completed 0 "{}" ""))
  = Some (BuildNotFound "demo:1").
Proof.
  apply (build_not_found_iff sample_loads sample_print_raises "demo:1" "demo:1").
  split; [reflexivity |]. split; [reflexivity |].
  exists "{}", "", []. now repeat split.
Defined.

(** A build id the console cannot print: the warning fails, and so does
    the line of the [except] clause, which quotes the first error. *)
Example unprintable_build_id_not_warned :
  get_build_info_on sample_loads sample_print_raises "[/bold]"
    (Completed 0 "{}" "")
  = (None, inl (markup_error "[/bold]" 36)).
Proof. reflexivity. Qed.

(** X3.  A zero exit whose output decodes to something other than a
    JSON object (a list, a string, a number, [true], [false] or [null])
    does not break the caller: the failed [data.get] is caught, reported
    as an unexpected error naming the type, and [None] is returned. *)
Theorem non_object_document_reported (json_loads : string -> exn + json)
    (build_id out err : string) (data : json) :
  json_loads out = inr data ->
  (forall items, data <> JObj items) ->
  get_build_info json_loads build_id (Completed 0 out err)
  = (Some (Unexpected
             ("'" ++ type_name data ++ "' object has no attribute 'get'")),
     None).
Proof.
  intros Hd Hno. rewrite (fetch_decoded _ _ _ _ _ Hd).
  destruct data; try reflexivity. now destruct (Hno items).
Qed.

Lemma non_object_document_reported_witness :
  get_build_info sample_loads "demo:1" (Completed 0 "[]" "")
  = (Some (Unexpected "'list' object has no attribute 'get'"), None).
Proof.
  apply (non_object_document_reported sample_loads "demo:1" "[]" "" (JArr [])).
  - reflexivity.
  - discriminate.
Defined.

(** ** The fetcher: classification of the error text *)

(** X4.  The phrase "could not be found", in any mix of upper and lower
    case and anywhere in the error text, makes a non-zero exit be
    reported as a missing AWS CLI; so is the AWS CLI's own message about
    a profile that could not be found.  Without that phrase, the word
    "credentials" in any case and anywhere gives the invalid-credentials
    line. *)
Theorem phrase_found_in_any_case (json_loads : string -> exn + json)
    (build_id : string) (rc : Z) (out a k b : string) :
  rc <> 0 ->
  (Py.lower k = "could not be found" ->
   get_build_info json_loads build_id (Completed rc out (a ++ k ++ b))
   = (Some CliNotFound, None)) /\
  (Py.lower k = "credentials" ->
   Py.contains "could not be found" (Py.lower (Py.strip (a ++ k ++ b))) = false ->
   get_build_info json_loads build_id (Completed rc out (a ++ k ++ b))
   = (Some InvalidCredentials, None)).
Proof.
  intros Hrc. rewrite (fetch_nonzero_exit _ _ _ _ _ Hrc). split.
  - intros Hk. rewrite classify_not_found; [reflexivity |].
    apply (phrase_survives "c" "d" "ould not be foun"); auto.
  - intros Hk Hno. rewrite classify_credentials; [reflexivity | assumption |].
    apply (phrase_survives "c" "s" "redential"); auto.
Qed.

Lemma phrase_found_in_any_case_witness :
  get_build_info sample_loads "demo:1"
    (Completed 255 ""
       ("  The config profile (dev) " ++ "Could Not Be Found" ++ "
"))
  = (Some CliNotFound, None).
Proof.
  apply (phrase_found_in_any_case sample_loads "demo:1" 255 ""
           "  The config profile (dev) " "Could Not Be Found" "
").
  - lia.
  - reflexivity.
Defined.

(** X5.  The classification does not depend on the case of the error
    text: lowering the text gives the same line, except that the generic
    line then quotes the lowered text. *)
Theorem classification_ignores_case (stderr : string) :
  classify_error (Py.lower stderr)
  = match classify_error stderr with
    | CliError error_msg => CliError (Py.lower error_msg)
    | d => d
    end.
Proof.
  unfold classify_error.
  rewrite strip_lower, lower_idempotent.
  destruct (Py.contains "could not be found" _); [reflexivity |].
  destruct (Py.contains "credentials" _); [reflexivity |].
  destruct (Py.contains "expired" _); reflexivity.
Qed.

(** ** The command line and the notifier *)

(** X6.  The [--profile] option is passed to the AWS CLI exactly when a
    non-empty profile was given, and then it is followed by that
    profile; with no profile or an empty one the command is just
    [aws codebuild batch-get-builds --ids <build id>].  The build id is
    always the last argument, as one argument. *)
Theorem profile_option_iff (profile : option string) (build_id : string) :
  (In "--profile" (base_cmd profile) <->
   exists p, profile = Some p /\ p <> "") /\
  (forall p, profile = Some p -> p <> "" ->
             batch_get_builds_cmd profile build_id
             = ["aws"; "codebuild"; "--profile"; p;
                "batch-get-builds"; "--ids"; build_id]) /\
  (profile = None \/ profile = Some "" ->
   batch_get_builds_cmd profile build_id
   = ["aws"; "codebuild"; "batch-get-builds"; "--ids"; build_id]) /\
  last (batch_get_builds_cmd profile build_id) "" = build_id.
Proof.
  unfold batch_get_builds_cmd, base_cmd.
  destruct profile as [p |].
  - destruct (String.eqb_spec p "") as [-> | Hp]; simpl.
    + repeat split; try reflexivity.
      * intros [H | [H | []]]; discriminate.
      * intros (p & [= <-] & H). contradiction.
      * intros p [= <-] H. contradiction.
    + repeat split; try reflexivity.
      * intros _. now exists p.
      * intros _. auto.
      * intros q [= <-] _. reflexivity.
      * intros [H | [= H]]; [discriminate | contradiction].
  - simpl. repeat split; try reflexivity.
    + intros [H | [H | []]]; discriminate.
    + intros (p & H & _). discriminate.
    + intros p H. discriminate.
Qed.

Lemma profile_option_iff_witness :
  batch_get_builds_cmd (Some "dev") "demo:1"
  = ["aws"; "codebuild"; "--profile"; "dev"; "batch-get-builds"; "--ids"; "demo:1"]
  /\ batch_get_builds_cmd (Some "") "demo:1"
  = ["aws"; "codebuild"; "batch-get-builds"; "--ids"; "demo:1"].
Proof.
  split.
  - destruct (profile_option_iff (Some "dev") "demo:1") as (_ & H & _).
    apply H; [reflexivity | discriminate].
  - destruct (profile_option_iff (Some "") "demo:1") as (_ & _ & H & _).
    apply H. now right.
Defined.

(** ** Invariants of a run *)

Lemma run_invariant (P : machine -> Prop) :
  (forall m r m', P m -> step m r = Some m' -> P m') ->
  forall replies m m', P m -> run_from m replies = Some m' -> P m'.
Proof.
  intros Hstep. induction replies as [| r rest IH]; intros m m' HP; simpl.
  - now intros [= <-].
  - destruct (step m r) as [m1 |] eqn:E; [| discriminate].
    apply IH. now apply (Hstep m r).
Qed.

Lemma logged_change_last_status (w : BuildWatchDog) (now : datetime)
    (cur : string) :
  is_some (last_status w) = true ->
  last_status (fst (logged_change w now cur)) = Some cur.
Proof.
  intros H. unfold logged_change.
  destruct (differs cur (last_status w)) eqn:E.
  - now rewrite add_event_last_status, E, H.
  - now apply differs_false_iff.
Qed.

Lemma step_marker (m m' : machine) (r : reply) :
  (in_loop (at_call m) = true ->
   exists evs e, events (self m) = (evs ++ [e])%list /\
                 last_status (self m) = Some (status e)) ->
  step m r = Some m' ->
  in_loop (at_call m') = true ->
  exists evs e, events (self m') = (evs ++ [e])%list /\
                last_status (self m') = Some (status e).
Proof.
  intros Hinv. step_cases m r; cbn [in_loop] in Hinv;
    try (intros _; now apply Hinv); try discriminate.
  - destruct (usable info) as [d |] eqn:E.
    + rewrite (after_initial_fetch_ok _ _ _ _ E). intros _. simpl. eauto.
    + now rewrite (after_initial_fetch_failed _ _ _ E).
  - intros _. destruct (Hinv eq_refl) as (evs & e & Hev & Hlast).
    assert (Hrec : is_some (last_status (self m)) = true) by now rewrite Hlast.
    destruct (usable info) as [d |] eqn:E.
    + rewrite (after_poll_fetch_ok _ _ _ _ E). cbn [self].
      set (cur := get_default (buildStatus d) "UNKNOWN").
      rewrite logged_change_last_status by assumption.
      rewrite logged_change_events.
      destruct (differs cur (last_status (self m))) eqn:Hd.
      * eexists _, _. split; reflexivity.
      * apply differs_false_iff in Hd. exists evs, e. split; congruence.
    + rewrite (after_poll_fetch_failed _ _ _ E). cbn [self].
      rewrite add_event_events, add_error_last_status by assumption.
      eexists _, _. split; reflexivity.
Qed.

(** X7.  Inside the loop the log is never empty and [last_status] is
    the status of the last logged event: the mark and the log never
    disagree, whatever the replies were. *)
Theorem marker_is_last_logged_status (id : string) (iv : Z) (mode : string)
    (replies : list reply) (m : machine) :
  run_from (main id iv mode) replies = Some m ->
  in_loop (at_call m) = true ->
  exists evs e,
    events (self m) = (evs ++ [e])%list /\
    last_status (self m) = Some (status e).
Proof.
  intros Hrun.
  apply (run_invariant
           (fun m => in_loop (at_call m) = true ->
                     exists evs e, events (self m) = (evs ++ [e])%list /\
                                   last_status (self m) = Some (status e))
           (fun m r m' => step_marker m m' r)
           replies (main id iv mode) m); [| assumption].
  destruct (main_self id iv mode) as (_ & -> & _). discriminate.
Qed.

Lemma marker_is_last_logged_status_witness :
  exists evs e,
    events (self (after_poll_fetch
                    (after_initial_fetch (main "demo:1" 10 "both") 60
                       (Some (mkBuildInfo (Some "IN_PROGRESS") None None None [])))
                    70 None))
    = (evs ++ [e])%list /\
    status e = "ERROR".
Proof.
  destruct (marker_is_last_logged_status "demo:1" 10 "both"
              [Fetched 60 (Some (mkBuildInfo (Some "IN_PROGRESS") None None None []));
               Fetched 70 None]
              _ eq_refl eq_refl) as (evs & e & Hev & Hlast).
  exists evs, e. split; [exact Hev |].
  simpl in Hlast. congruence.
Defined.

Lemma add_event_counts (now : datetime) (s msg : string) (w : BuildWatchDog) :
  List.length (events (fst (add_event now s msg w)))
  = S (List.length (events w)) /\
  (List.length (snd (add_event now s msg w)) <= 1)%nat.
Proof.
  rewrite add_event_events, add_event_sent, length_app. simpl.
  split; [lia |]. destruct (_ && _); simpl; lia.
Qed.

Lemma logged_change_counts (w : BuildWatchDog) (now : datetime) (cur : string) :
  (List.length (events w) <= List.length (events (fst (logged_change w now cur)))
   <= S (List.length (events w)))%nat /\
  (List.length (snd (logged_change w now cur)) + List.length (events w)
   <= List.length (events (fst (logged_change w now cur))))%nat.
Proof.
  unfold logged_change. destruct (differs cur (last_status w)).
  - destruct (add_event_counts now cur ("Status changed to " ++ cur) w)
      as (-> & H). lia.
  - simpl. lia.
Qed.

Lemma step_counts (m m' : machine) (r : reply) :
  (in_loop (at_call m) = true -> events (self m) <> []) /\
  (List.length (sent m) <= List.length (events (self m)) - 1)%nat /\
  (List.length (events (self m)) <= fetches m)%nat /\
  (List.length (live m) <= fetches m)%nat ->
  step m r = Some m' ->
  (in_loop (at_call m') = true -> events (self m') <> []) /\
  (List.length (sent m') <= List.length (events (self m')) - 1)%nat /\
  (List.length (events (self m')) <= fetches m')%nat /\
  (List.length (live m') <= fetches m')%nat.
Proof.
  intros (Hne & Hs & He & Hl).
  step_cases m r; cbn [in_loop] in Hne;
    try (cbn [interrupted goto fetch_crashed self sent live fetches at_call in_loop];
         repeat split; auto; discriminate);
    try (cbn [fetch_crashed self sent live fetches at_call in_loop];
         repeat split; try lia; discriminate).
  - destruct (usable info) as [d |] eqn:E.
    + rewrite (after_initial_fetch_ok _ _ _ _ E).
      cbn [self sent live fetches at_call in_loop set_events events].
      rewrite !length_app. simpl. repeat split; try lia.
      intros _ H. now destruct (events (self m)).
    + rewrite (after_initial_fetch_failed _ _ _ E).
      cbn [self sent live fetches at_call in_loop].
      repeat split; try lia; try discriminate.
  - specialize (Hne eq_refl).
    assert (Hpos : (1 <= List.length (events (self m)))%nat)
      by (destruct (events (self m)); [contradiction | simpl; lia]).
    destruct (usable info) as [d |] eqn:E.
    + rewrite (after_poll_fetch_ok _ _ _ _ E).
      cbn [self sent live fetches at_call].
      destruct (logged_change_counts (self m) now
                  (get_default (buildStatus d) "UNKNOWN")) as (H1 & H2).
      rewrite !length_app. simpl. repeat split; try lia.
      intros _ H. rewrite H in H1. simpl in H1. lia.
    + rewrite (after_poll_fetch_failed _ _ _ E).
      cbn [self sent live fetches at_call].
      destruct (add_event_counts now "ERROR" "Failed to fetch build info"
                  (self m)) as (H1 & H2).
      rewrite !length_app. simpl. repeat split; try lia.
      intros _ H. rewrite H in H1. simpl in H1. lia.
  - unfold after_final_fetch. cbn [self sent live fetches at_call in_loop].
    repeat split; try lia; try discriminate.
    destruct (usable info); [rewrite length_app; simpl |]; lia.
Qed.

(** X8.  In every run the log has at most one event per completed
    fetch, the dashboard was drawn at most once per completed fetch, and
    fewer notifier calls were made than events were logged: the first
    event never notifies, and no event notifies twice. *)
Theorem log_and_notifications_bounded (id : string) (iv : Z) (mode : string)
    (replies : list reply) (m : machine) :
  run_from (main id iv mode) replies = Some m ->
  (List.length (events (self m)) <= fetches m)%nat /\
  (List.length (live m) <= fetches m)%nat /\
  (List.length (sent m) <= List.length (events (self m)) - 1)%nat.
Proof.
  intros Hrun.
  assert (H : (in_loop (at_call m) = true -> events (self m) <> []) /\
              (List.length (sent m) <= List.length (events (self m)) - 1)%nat /\
              (List.length (events (self m)) <= fetches m)%nat /\
              (List.length (live m) <= fetches m)%nat).
  { apply (run_invariant _ (fun m r m' => step_counts m m' r)
             replies (main id iv mode) m); [| assumption].
    destruct (main_self id iv mode) as (-> & -> & -> & -> & ->).
    simpl. repeat split; try lia; try discriminate. }
  tauto.
Qed.

Lemma log_and_notifications_bounded_witness :
  let m := after_poll_fetch
             (after_initial_fetch (main "demo:1" 10 "both") 60
                (Some (mkBuildInfo (Some "IN_PROGRESS") None None None [])))
             70 None in
  (List.length (events (self m)) <= fetches m)%nat /\
  (List.length (live m) <= fetches m)%nat /\
  (List.length (sent m) <= List.length (events (self m)) - 1)%nat.
Proof.
  intros m.
  apply (log_and_notifications_bounded "demo:1" 10 "both"
           [Fetched 60 (Some (mkBuildInfo (Some "IN_PROGRESS") None None None []));
            Fetched 70 None]).
  reflexivity.
Defined.

Lemma add_event_sent_in (now : datetime) (s msg : string) (w : BuildWatchDog)
    (n : notification) :
  In n (snd (add_event now s msg w)) ->
  n = ("BuildWatchDog", msg).
Proof.
  rewrite add_event_sent. destruct (_ && _); simpl; [| tauto].
  intros [H | []]. now symmetry.
Qed.

Lemma step_sent_logged (m m' : machine) (r : reply) :
  (forall n, In n (sent m) ->
             fst n = "BuildWatchDog" /\
             exists e, In e (events (self m)) /\ message e = snd n) ->
  step m r = Some m' ->
  forall n, In n (sent m') ->
            fst n = "BuildWatchDog" /\
            exists e, In e (events (self m')) /\ message e = snd n.
Proof.
  intros Hinv. step_cases m r; try exact Hinv.
  - destruct (usable info) as [d |] eqn:E.
    + rewrite (after_initial_fetch_ok _ _ _ _ E). cbn [self sent set_events events].
      intros n Hn. destruct (Hinv n Hn) as (Ht & e & He & Hm).
      split; [assumption |]. exists e. split; [| assumption].
      apply in_or_app. now left.
    + now rewrite (after_initial_fetch_failed _ _ _ E).
  - destruct (usable info) as [d |] eqn:E.
    + rewrite (after_poll_fetch_ok _ _ _ _ E). cbn [self sent].
      set (cur := get_default (buildStatus d) "UNKNOWN").
      intros n Hn. apply in_app_or in Hn. rewrite logged_change_events.
      unfold logged_change in Hn.
      destruct (differs cur (last_status (self m))).
      * destruct Hn as [Hn | Hn].
        -- destruct (Hinv n Hn) as (Ht & e & He & Hm).
           split; [assumption |]. exists e. split; [| assumption].
           apply in_or_app. now left.
        -- apply add_event_sent_in in Hn. subst n. split; [reflexivity |].
           eexists. split; [apply in_or_app; right; left; reflexivity |].
           reflexivity.
      * destruct Hn as [Hn | []]. now apply Hinv.
    + rewrite (after_poll_fetch_failed _ _ _ E). cbn [self sent].
      intros n Hn. apply in_app_or in Hn. rewrite add_event_events.
      destruct Hn as [Hn | Hn].
      * destruct (Hinv n Hn) as (Ht & e & He & Hm).
        split; [assumption |]. exists e. split; [| assumption].
        apply in_or_app. now left.
      * apply add_event_sent_in in Hn. subst n. split; [reflexivity |].
        eexists. split; [apply in_or_app; right; left; reflexivity |].
        reflexivity.
Qed.

(** X9.  Every notifier call of a run has the title "BuildWatchDog" and
    carries the message of an event that is in the log: nothing is
    notified that the dashboard's log does not hold. *)
Theorem notifications_are_logged (id : string) (iv : Z) (mode : string)
    (replies : list reply) (m : machine) (n : notification) :
  run_from (main id iv mode) replies = Some m ->
  In n (sent m) ->
  fst n = "BuildWatchDog" /\
  exists e, In e (events (self m)) /\ message e = snd n.
Proof.
  intros Hrun.
  apply (run_invariant
           (fun m => forall n, In n (sent m) ->
                               fst n = "BuildWatchDog" /\
                               exists e, In e (events (self m)) /\
                                         message e = snd n)
           (fun m r m' => step_sent_logged m m' r)
           replies (main id iv mode) m); [| assumption].
  destruct (main_self id iv mode) as (_ & _ & -> & _). intros ? [].
Qed.

Lemma notifications_are_logged_witness :
  let m := after_poll_fetch
             (after_initial_fetch (main "demo:1" 10 "both") 60
                (Some (mkBuildInfo (Some "IN_PROGRESS") None None None [])))
             70 None in
  exists e, In e (events (self m)) /\ message e = "Failed to fetch build info".
Proof.
  intros m.
  destruct (notifications_are_logged "demo:1" 10 "both"
              [Fetched 60 (Some (mkBuildInfo (Some "IN_PROGRESS") None None None []));
               Fetched 70 None]
              m ("BuildWatchDog", "Failed to fetch build info")
              eq_refl (or_introl eq_refl)) as (_ & H).
  exact H.
Defined.

Lemma send_elsewhere (platform title message : string) :
  platform <> "darwin" -> String.prefix "linux" platform = false ->
  send platform title message = [].
Proof.
  intros Hd Hl. unfold send.
  destruct (String.eqb_spec platform "darwin"); [contradiction |].
  now rewrite Hl.
Qed.

Lemma send_linux (platform title message : string) :
  String.prefix "linux" platform = true ->
  send platform title message = [["notify-send"; title; message]].
Proof.
  intros Hl. unfold send.
  destruct (String.eqb_spec platform "darwin") as [-> | _];
    [discriminate | now rewrite Hl].
Qed.

Lemma flat_map_send_linux (platform : string) (l : list notification) :
  String.prefix "linux" platform = true ->
  (forall n, In n l -> fst n = "BuildWatchDog") ->
  flat_map (fun n => send platform (fst n) (snd n)) l
  = map (fun n => ["notify-send"; "BuildWatchDog"; snd n]) l.
Proof.
  intros Hl. induction l as [| n l IH]; intros Hall; simpl; [reflexivity |].
  rewrite send_linux by assumption.
  rewrite (Hall n (or_introl eq_refl)), IH; [reflexivity |].
  intros n' Hn'. apply Hall. now right.
Qed.

(** X10.  What the notifier runs in a whole run depends on the
    platform: on a platform that is neither "darwin" nor begins with
    "linux" no command is ever run, in any notify mode; on Linux every
    notifier call runs exactly [notify-send BuildWatchDog <message>],
    the message being an argument of its own. *)
Theorem notifier_commands_by_platform (id : string) (iv : Z) (mode : string)
    (replies : list reply) (m : machine) (platform : string) :
  run_from (main id iv mode) replies = Some m ->
  (platform <> "darwin" -> String.prefix "linux" platform = false ->
   commands_run platform m = []) /\
  (String.prefix "linux" platform = true ->
   commands_run platform m
   = map (fun n => ["notify-send"; "BuildWatchDog"; snd n]) (sent m)).
Proof.
  intros Hrun. unfold commands_run. split.
  - intros Hd Hl. induction (sent m) as [| n l IH]; simpl; [reflexivity |].
    now rewrite send_elsewhere, IH.
  - intros Hl. apply flat_map_send_linux; [assumption |].
    intros n Hn.
    enough (H : forall n, In n (sent m) ->
                fst n = "BuildWatchDog" /\
                exists e, In e (events (self m)) /\ message e = snd n)
      by (now apply H).
    apply (run_invariant _ (fun m r m' => step_sent_logged m m' r)
             replies (main id iv mode) m); [| assumption].
    destruct (main_self id iv mode) as (_ & _ & -> & _). intros ? [].
Qed.

Lemma notifier_commands_by_platform_witness :
  let m := after_poll_fetch
             (after_initial_fetch (main "demo:1" 10 "both") 60
                (Some (mkBuildInfo (Some "IN_PROGRESS") None None None [])))
             70 None in
  commands_run "win32" m = [] /\
  commands_run "linux" m
  = [["notify-send"; "BuildWatchDog"; "Failed to fetch build info"]].
Proof.
  intros m.
  destruct (notifier_commands_by_platform "demo:1" 10 "both"
              [Fetched 60 (Some (mkBuildInfo (Some "IN_PROGRESS") None None None []));
               Fetched 70 None] m "win32" eq_refl) as (Hwin & _).
  destruct (notifier_commands_by_platform "demo:1" 10 "both"
              [Fetched 60 (Some (mkBuildInfo (Some "IN_PROGRESS") None None None []));
               Fetched 70 None] m "linux" eq_refl) as (_ & Hlinux).
  split.
  - apply Hwin; [discriminate | reflexivity].
  - rewrite Hlinux by reflexivity. reflexivity.
Defined.

(** ** The project name *)

Lemma create_display_project (w : BuildWatchDog) (info : BuildInfo) :
  In (project_name w, "bold yellow") (header_text (create_display w info)).
Proof. unfold create_display. simpl. tauto. Qed.

Lemma step_project_name (name : string) (m m' : machine) (r : reply) :
  at_call m <> InitialFetch /\
  project_name (self m) = name /\
  (forall p, In p (live m) -> In (name, "bold yellow") (header_text p)) ->
  step m r = Some m' ->
  at_call m' <> InitialFetch /\
  project_name (self m') = name /\
  (forall p, In p (live m') -> In (name, "bold yellow") (header_text p)).
Proof.
  intros (Hat0 & Hname & Hlive).
  step_cases m r; try contradiction;
    try (cbn [interrupted goto fetch_crashed self live at_call];
         repeat split; auto; discriminate).
  - destruct (usable info) as [d |] eqn:E.
    + rewrite (after_poll_fetch_ok _ _ _ _ E). cbn [self live at_call].
      destruct (logged_change_frame (self m) now
                  (get_default (buildStatus d) "UNKNOWN"))
        as (_ & _ & _ & Hp).
      split; [now destruct (Py.mem _ terminal_statuses) |].
      split; [congruence |].
      intros p Hin. apply in_app_or in Hin. destruct Hin as [Hin | [<- | []]].
      * now apply Hlive.
      * rewrite <- Hname, <- Hp. apply create_display_project.
    + rewrite (after_poll_fetch_failed _ _ _ E). cbn [self live at_call].
      destruct (add_event_frame now "ERROR" "Failed to fetch build info"
                  (self m)) as (_ & _ & _ & Hp).
      split; [discriminate |]. split; [congruence |].
      intros p Hin. apply in_app_or in Hin. destruct Hin as [Hin | [<- | []]].
      * now apply Hlive.
      * rewrite <- Hname, <- Hp. apply create_display_project.
  - unfold after_final_fetch. cbn [self live at_call].
    split; [discriminate |]. split; [assumption |].
    destruct (usable info) as [d |]; [| assumption].
    intros p Hin. apply in_app_or in Hin. destruct Hin as [Hin | [<- | []]].
    + now apply Hlive.
    + rewrite <- Hname. apply create_display_project.
Qed.

(** X11.  The project name is taken from the initial fetch ("Unknown"
    if that build has none) and never changes afterwards: whatever
    project names later fetches carry, the object keeps the first one
    and every dashboard that was drawn shows it. *)
Theorem project_name_set_once (id : string) (iv : Z) (mode : string)
    (now : datetime) (d : BuildInfo) (rest : list reply) (m : machine) :
  info_truthy (Some d) = true ->
  run_from (main id iv mode) (Fetched now (Some d) :: rest) = Some m ->
  project_name (self m) = get_default (projectName d) "Unknown" /\
  forall p, In p (live m) ->
            In (get_default (projectName d) "Unknown", "bold yellow")
               (header_text p).
Proof.
  intros Hok. cbn [run_from].
  destruct (main_self id iv mode) as (Hself & Hat & _ & Hlive & _).
  unfold step at 1. rewrite Hat.
  assert (E : usable (Some d) = Some d) by (apply usable_some; auto).
  intros Hrun.
  apply (run_invariant _
           (fun m r m' => step_project_name
                            (get_default (projectName d) "Unknown") m m' r))
    in Hrun; [tauto |].
  rewrite (after_initial_fetch_ok _ _ _ _ E). cbn [self live at_call].
  split; [discriminate |]. split; [reflexivity |].
  rewrite Hlive. intros p [<- | []].
  unfold create_display. cbn [header_text].
  do 4 right. left. reflexivity.
Qed.

Lemma project_name_set_once_witness :
  project_name
    (self (after_poll_fetch
             (after_initial_fetch (main "demo:1" 10 "both") 60
                (Some (mkBuildInfo (Some "IN_PROGRESS") (Some "alpha") None None [])))
             70 (Some (mkBuildInfo (Some "IN_PROGRESS") (Some "beta") None None []))))
  = "alpha".
Proof.
  apply (project_name_set_once "demo:1" 10 "both" 60
           (mkBuildInfo (Some "IN_PROGRESS") (Some "alpha") None None [])
           [Fetched 70 (Some (mkBuildInfo (Some "IN_PROGRESS") (Some "beta") None None []))]).
  - reflexivity.
  - reflexivity.
Defined.

(** ** What [run] prints *)

Lemma step_console (c0 : list string) (m m' : machine) (r : reply) :
  (in_loop (at_call m) = true -> is_some (last_status (self m)) = true) /\
  match at_call m with
  | Halted (SysExit code) =>
      (code = 0 ->
       console m
       = (c0 ++ [(nl ++ "[yellow]Monitoring stopped by user.[/yellow]")%string])%list)
      /\ (code <> 0 -> console m = c0)
  | Halted RunReturned =>
      exists s, In s terminal_statuses /\ last_status (self m) = Some s /\
                console m
                = (c0 ++ [(nl ++ "[bold]Build " ++ s ++ "![/bold]")%string])%list
  | Halted (Uncaught _) => console m = c0
  | FinalPause s | FinalFetch s =>
      console m = c0 /\ In s terminal_statuses /\ last_status (self m) = Some s
  | _ => console m = c0
  end ->
  step m r = Some m' ->
  (in_loop (at_call m') = true -> is_some (last_status (self m')) = true) /\
  match at_call m' with
  | Halted (SysExit code) =>
      (code = 0 ->
       console m'
       = (c0 ++ [(nl ++ "[yellow]Monitoring stopped by user.[/yellow]")%string])%list)
      /\ (code <> 0 -> console m' = c0)
  | Halted RunReturned =>
      exists s, In s terminal_statuses /\ last_status (self m') = Some s /\
                console m'
                = (c0 ++ [(nl ++ "[bold]Build " ++ s ++ "![/bold]")%string])%list
  | Halted (Uncaught _) => console m' = c0
  | FinalPause s | FinalFetch s =>
      console m' = c0 /\ In s terminal_statuses /\ last_status (self m') = Some s
  | _ => console m' = c0
  end.
Proof.
  intros (Hrec & Hc) Hstep.
  split; [exact (step_recorded m m' r Hrec Hstep) |].
  revert Hstep. step_cases m r; cbn [in_loop] in Hrec.
  - destruct (usable info) as [d |] eqn:E.
    + now rewrite (after_initial_fetch_ok _ _ _ _ E).
    + rewrite (after_initial_fetch_failed _ _ _ E). cbn [at_call console].
      split; [discriminate | now intros _].
  - exact Hc.
  - specialize (Hrec eq_refl).
    destruct (usable info) as [d |] eqn:E.
    + rewrite (after_poll_fetch_ok _ _ _ _ E). cbn [at_call console self].
      destruct (Py.mem _ terminal_statuses) eqn:Hmem; [| assumption].
      split; [assumption |]. split; [now apply mem_terminal_iff |].
      now apply logged_change_last_status.
    + now rewrite (after_poll_fetch_failed _ _ _ E).
  - cbn [interrupted at_call console]. rewrite Hc. split; [reflexivity | congruence].
  - exact Hc.
  - exact Hc.
  - exact Hc.
  - cbn [interrupted at_call console]. rewrite Hc. split; [reflexivity | congruence].
  - exact Hc.
  - exact Hc.
  - destruct Hc as (Hc & _).
    cbn [interrupted at_call console]. rewrite Hc. split; [reflexivity | congruence].
  - destruct Hc as (Hc & Hin & Hlast).
    unfold after_final_fetch. cbn [at_call console self].
    exists current_status. rewrite Hc. auto.
  - destruct Hc as (Hc & _).
    cbn [interrupted at_call console]. rewrite Hc. split; [reflexivity | congruence].
  - now destruct Hc as (Hc & _).
Qed.

Lemma opening_has_no_closing_line (id : string) (iv : Z) (mode : string)
    (text line : string) :
  line = (nl ++ text)%string -> ~ In line (console (main id iv mode)).
Proof.
  intros ->. unfold main, run_start.
  destruct (iv <? 5); cbn [console In]; intros H;
    repeat (destruct H as [H | H]; [discriminate |]); exact H.
Qed.

(** X12.  The two closing lines of [run].  A process that ended by
    [sys.exit(0)] printed the stop notice as its last line; one that
    ended because the build was complete printed "Build <status>!" as
    its last line, where the status is one of the five terminal ones and
    is the [last_status] of the object.  Conversely the stop notice is on
    the console only after the interrupt, and a line "Build <status>!"
    only after the build was complete. *)
Theorem console_output_of_run (id : string) (iv : Z) (mode : string)
    (replies : list reply) (m : machine) :
  run_from (main id iv mode) replies = Some m ->
  (at_call m = Halted (SysExit 0) ->
   last (console m) ""
   = (nl ++ "[yellow]Monitoring stopped by user.[/yellow]")%string) /\
  (at_call m = Halted RunReturned ->
   exists s,
     In s ["SUCCEEDED"; "FAILED"; "STOPPED"; "FAULT"; "TIMED_OUT"] /\
     last_status (self m) = Some s /\
     last (console m) "" = (nl ++ "[bold]Build " ++ s ++ "![/bold]")%string) /\
  (In (nl ++ "[yellow]Monitoring stopped by user.[/yellow]")%string (console m) ->
   at_call m = Halted (SysExit 0)) /\
  (forall s,
      In (nl ++ "[bold]Build " ++ s ++ "![/bold]")%string (console m) ->
      at_call m = Halted RunReturned).
Proof.
  intros Hrun.
  apply (run_invariant _
           (fun m r m' => step_console (console (main id iv mode)) m m' r))
    in Hrun.
  - destruct Hrun as (_ & Hc).
    assert (Hopen : forall text,
               ~ In (nl ++ text)%string (console (main id iv mode)))
      by (intros text; now apply opening_has_no_closing_line with (text := text)).
    split; [| split; [| split]].
    + intros Hat. rewrite Hat in Hc. destruct Hc as (Hc & _).
      rewrite Hc by reflexivity. apply last_last.
    + intros Hat. rewrite Hat in Hc. destruct Hc as (s & Hin & Hlast & Hc).
      exists s. split; [assumption |]. split; [assumption |].
      rewrite Hc. apply last_last.
    + intros Hin.
      destruct (at_call m) as [| | | s | s | [code | | e]];
        try (rewrite Hc in Hin; now apply Hopen in Hin);
        try (destruct Hc as (Hc & _); rewrite Hc in Hin; now apply Hopen in Hin).
      * destruct (Z.eq_dec code 0) as [-> | Hcode]; [reflexivity |].
        destruct Hc as (_ & Hc). rewrite Hc in Hin by assumption.
        now apply Hopen in Hin.
      * destruct Hc as (s & _ & _ & Hc). rewrite Hc in Hin.
        apply in_app_or in Hin. destruct Hin as [Hin | [Hin | []]].
        -- now apply Hopen in Hin.
        -- discriminate.
    + intros s0 Hin.
      destruct (at_call m) as [| | | s | s | [code | | e]];
        try (rewrite Hc in Hin; now apply Hopen in Hin);
        try (destruct Hc as (Hc & _); rewrite Hc in Hin; now apply Hopen in Hin);
        try reflexivity.
      destruct (Z.eq_dec code 0) as [-> | Hcode].
      * destruct Hc as (Hc & _). rewrite Hc in Hin by reflexivity.
        apply in_app_or in Hin. destruct Hin as [Hin | [Hin | []]].
        -- now apply Hopen in Hin.
        -- discriminate.
      * destruct Hc as (_ & Hc). rewrite Hc in Hin by assumption.
        now apply Hopen in Hin.
  - destruct (main_self id iv mode) as (_ & -> & _). split; [discriminate | reflexivity].
Qed.

Lemma console_output_of_run_witness :
  let building := Some (mkBuildInfo (Some "IN_PROGRESS") None None None []) in
  last (console (interrupted
                   (after_poll_fetch
                      (after_initial_fetch (main "demo:1" 10 "both") 60 building)
                      70 building))) ""
  = (nl ++ "[yellow]Monitoring stopped by user.[/yellow]")%string.
Proof.
  intros building.
  destruct (console_output_of_run "demo:1" 10 "both"
              [Fetched 60 building; Fetched 70 building; Sigint]
              _ eq_refl) as (Hstop & _).
  apply Hstop. reflexivity.
Defined.

(** ** How many fetches a run makes *)

Lemma step_fetch_floor (m m' : machine) (r : reply) :
  match at_call m with
  | InitialFetch => True
  | PollFetch => (1 <= fetches m)%nat /\ (1 <= List.length (live m))%nat
  | Halted RunReturned =>
      (3 <= fetches m)%nat /\ (2 <= List.length (live m))%nat
  | Halted _ => True
  | _ => (2 <= fetches m)%nat /\ (2 <= List.length (live m))%nat
  end ->
  step m r = Some m' ->
  match at_call m' with
  | InitialFetch => True
  | PollFetch => (1 <= fetches m')%nat /\ (1 <= List.length (live m'))%nat
  | Halted RunReturned =>
      (3 <= fetches m')%nat /\ (2 <= List.length (live m'))%nat
  | Halted _ => True
  | _ => (2 <= fetches m')%nat /\ (2 <= List.length (live m'))%nat
  end.
Proof.
  intros H. step_cases m r; cbn [interrupted goto fetch_crashed at_call fetches live];
    try exact I; try (cbn [fetches live]; lia).
  - destruct (usable info) as [d |] eqn:E.
    + rewrite (after_initial_fetch_ok _ _ _ _ E). cbn [at_call fetches live].
      rewrite length_app. simpl. lia.
    + now rewrite (after_initial_fetch_failed _ _ _ E).
  - destruct (usable info) as [d |] eqn:E.
    + rewrite (after_poll_fetch_ok _ _ _ _ E). cbn [at_call fetches live].
      rewrite length_app. cbn [List.length].
      destruct (Py.mem _ terminal_statuses); lia.
    + rewrite (after_poll_fetch_failed _ _ _ E). cbn [at_call fetches live].
      rewrite length_app. simpl. lia.
  - unfold after_final_fetch. cbn [at_call fetches live].
    destruct (usable info); [rewrite length_app; simpl |]; lia.
Qed.

(** X13.  A run that ends because the build is complete has made at
    least three fetches and drawn the dashboard at least twice: even a
    build that is already complete at the initial fetch is polled once
    more and then fetched a last time. *)
Theorem completion_takes_three_fetches (id : string) (iv : Z) (mode : string)
    (replies : list reply) (m : machine) :
  run_from (main id iv mode) replies = Some m ->
  at_call m = Halted RunReturned ->
  (3 <= fetches m)%nat /\ (2 <= List.length (live m))%nat.
Proof.
  intros Hrun Hat.
  apply (run_invariant _ (fun m r m' => step_fetch_floor m m' r)) in Hrun.
  - now rewrite Hat in Hrun.
  - destruct (main_self id iv mode) as (_ & -> & _). exact I.
Qed.

Lemma completion_takes_three_fetches_witness :
  let done := Some (mkBuildInfo (Some "SUCCEEDED") None None None []) in
  let m := after_final_fetch
             (goto (after_poll_fetch
                      (after_initial_fetch (main "demo:1" 10 "both") 60 done)
                      70 done)
                   (FinalFetch "SUCCEEDED"))
             "SUCCEEDED" None in
  (3 <= fetches m)%nat /\ (2 <= List.length (live m))%nat.
Proof.
  intros done m.
  apply (completion_takes_three_fetches "demo:1" 10 "both"
           [Fetched 60 done; Fetched 70 done; Slept; Fetched 73 None]);
    reflexivity.
Defined.

Lemma step_negative_interval (m m' : machine) (r : reply) :
  interval (self m) < 0 /\
  match at_call m with
  | InitialFetch => fetches m = 0%nat
  | PollFetch => fetches m = 1%nat
  | Halted _ => (fetches m <= 3)%nat
  | _ => fetches m = 2%nat
  end ->
  step m r = Some m' ->
  interval (self m') < 0 /\
  match at_call m' with
  | InitialFetch => fetches m' = 0%nat
  | PollFetch => fetches m' = 1%nat
  | Halted _ => (fetches m' <= 3)%nat
  | _ => fetches m' = 2%nat
  end.
Proof.
  intros (Hneg0 & H) Hstep.
  split; [destruct (step_config _ _ _ Hstep) as (_ & -> & _); assumption |].
  revert Hstep.
  step_cases m r; cbn [interrupted goto fetch_crashed at_call fetches];
    try lia.
  - destruct (usable info) as [d |] eqn:E.
    + rewrite (after_initial_fetch_ok _ _ _ _ E). cbn [at_call fetches]. lia.
    + rewrite (after_initial_fetch_failed _ _ _ E). cbn [at_call fetches]. lia.
  - destruct (usable info) as [d |] eqn:E.
    + rewrite (after_poll_fetch_ok _ _ _ _ E). cbn [at_call fetches].
      destruct (Py.mem _ terminal_statuses); lia.
    + rewrite (after_poll_fetch_failed _ _ _ E). cbn [at_call fetches]. lia.
  - unfold after_final_fetch. cbn [at_call fetches]. lia.
Qed.

(** X14.  A negative interval is not refused, but the loop then polls
    only once: the only time the process is about to poll is right after
    the initial fetch, a sleep it reaches cannot return (it raises, and
    the process ends with exit status 1), and no run makes more than
    three fetches. *)
Theorem negative_interval_polls_once (id : string) (iv : Z) (mode : string)
    (replies : list reply) (m : machine) :
  iv < 0 ->
  run_from (main id iv mode) replies = Some m ->
  (fetches m <= 3)%nat /\
  (at_call m = PollFetch -> fetches m = 1%nat) /\
  (at_call m = IntervalSleep ->
   step m Slept = None /\
   exists m' o, step m SleepValueError = Some m' /\
                at_call m' = Halted o /\ exit_code o = 1).
Proof.
  intros Hneg Hrun.
  apply (run_invariant _ (fun m r m' => step_negative_interval m m' r)) in Hrun.
  - destruct Hrun as (Hint & Hf).
    split; [destruct (at_call m); lia |].
    split; [intros Hat; now rewrite Hat in Hf |].
    intros Hat. unfold step. rewrite Hat. split.
    + destruct (0 <=? interval (self m)) eqn:E; [| reflexivity].
      apply Z.leb_le in E. lia.
    + apply Z.ltb_lt in Hint. rewrite Hint.
      eexists _, _. split; [reflexivity |]. split; reflexivity.
  - destruct (main_self id iv mode) as (-> & -> & _ & _ & ->).
    split; [assumption | reflexivity].
Qed.

Lemma negative_interval_polls_once_witness :
  let building := Some (mkBuildInfo (Some "IN_PROGRESS") None None None []) in
  step (after_poll_fetch
          (after_initial_fetch (main "demo:1" (-1) "both") 60 building)
          61 building) Slept = None.
Proof.
  intros building.
  destruct (negative_interval_polls_once "demo:1" (-1) "both"
              [Fetched 60 building; Fetched 61 building] _
              ltac:(lia) eq_refl) as (_ & _ & H).
  apply H. reflexivity.
Defined.

(** ** Failed fetches *)

(** X15.  [run] tests the truth value of what [get_build_info] returns,
    not whether it is [None]: a build that is an empty dict is handled,
    at every call, exactly like a failed fetch. *)
Theorem empty_build_is_a_failed_fetch (m : machine) (now : datetime)
    (info : option BuildInfo) :
  info_truthy info = false ->
  step m (Fetched now info) = step m (Fetched now None).
Proof.
  intros H. apply usable_none in H.
  unfold step, after_initial_fetch, after_poll_fetch, after_final_fetch.
  rewrite H. reflexivity.
Qed.

Lemma empty_build_is_a_failed_fetch_witness :
  step (main "demo:1" 10 "both") (Fetched 60 (Some empty_dict))
  = step (main "demo:1" 10 "both") (Fetched 60 None).
Proof. apply empty_build_is_a_failed_fetch. reflexivity. Defined.

(** X16.  Of a streak of failed fetches only the first one notifies: a
    second failed fetch in a row is logged as an event but makes no
    notifier call, in any notify mode. *)
Theorem repeated_failure_notifies_once (id : string) (iv : Z) (mode : string)
    (replies : list reply) (m : machine) (now1 now2 : datetime)
    (bad1 bad2 : option BuildInfo) :
  0 <= iv ->
  run_from (main id iv mode) replies = Some m ->
  at_call m = PollFetch ->
  info_truthy bad1 = false ->
  info_truthy bad2 = false ->
  exists m1 m2,
    step m (Fetched now1 bad1) = Some m1 /\
    run_from m1 [Slept; Fetched now2 bad2] = Some m2 /\
    sent m2 = sent m1 /\
    events (self m2)
    = (events (self m1) ++
       [mkBuildEvent now2 "ERROR" "Failed to fetch build info"])%list /\
    last_status (self m2) = Some "ERROR".
Proof.
  intros Hiv Hrun Hat Hbad1 Hbad2.
  destruct (main_self id iv mode) as (Hself & Hat0 & _).
  assert (Hrec : is_some (last_status (self m)) = true).
  { apply (run_recorded replies (main id iv mode) m); [| assumption |].
    - rewrite Hat0. discriminate.
    - now rewrite Hat. }
  destruct (run_config _ _ _ Hrun) as (_ & Hint & _).
  rewrite Hself in Hint. simpl in Hint.
  apply usable_none in Hbad1, Hbad2.
  exists (after_poll_fetch m now1 bad1).
  rewrite (after_poll_fetch_failed _ _ _ Hbad1).
  set (logged := add_event now1 "ERROR" "Failed to fetch build info" (self m)).
  assert (Hlast : last_status (fst logged) = Some "ERROR")
    by now apply add_error_last_status.
  destruct (add_event_frame now1 "ERROR" "Failed to fetch build info" (self m))
    as (_ & Hint1 & _).
  fold logged in Hint1.
  eexists. split.
  { rewrite step_poll_fetch by assumption.
    now rewrite (after_poll_fetch_failed _ _ _ Hbad1). }
  cbn [run_from]. unfold step at 1. cbn [at_call self].
  rewrite Hint1, Hint. apply Z.leb_le in Hiv. rewrite Hiv.
  unfold step. cbn [goto at_call].
  split; [reflexivity |].
  rewrite (after_poll_fetch_failed _ _ _ Hbad2). cbn [self sent goto].
  rewrite add_event_sent, add_event_events, add_event_last_status, Hlast.
  simpl. rewrite app_nil_r. auto.
Qed.

Lemma repeated_failure_notifies_once_witness :
  let started :=
    after_initial_fetch (main "demo:1" 10 "both") 60
      (Some (mkBuildInfo (Some "IN_PROGRESS") None None None [])) in
  exists m1 m2,
    step started (Fetched 70 None) = Some m1 /\
    run_from m1 [Slept; Fetched 80 None] = Some m2 /\
    sent m2 = sent m1.
Proof.
  intros started.
  destruct (repeated_failure_notifies_once "demo:1" 10 "both"
              [Fetched 60 (Some (mkBuildInfo (Some "IN_PROGRESS") None None None []))]
              started 70 80 None None ltac:(lia) eq_refl eq_refl eq_refl eq_refl)
    as (m1 & m2 & H1 & H2 & H3 & _).
  now exists m1, m2.
Defined.

(** ** The dashboard *)

Lemma last_n_snoc {A : Type} (n : nat) (l : list A) (x : A) :
  (0 < n)%nat ->
  exists rows, last_n n (l ++ [x]) = (rows ++ [x])%list.
Proof.
  intros Hn. unfold last_n. rewrite length_app, skipn_app. simpl.
  replace (List.length l + 1 - n - List.length l)%nat with 0%nat by lia.
  simpl. eauto.
Qed.

Lemma event_table_snoc (w : BuildWatchDog) (info : BuildInfo)
    (older : list BuildEvent) (e : BuildEvent) :
  events w = (older ++ [e])%list ->
  exists rows,
    event_table (create_display w info) = (rows ++ [event_line e])%list.
Proof.
  intros H. rewrite event_table_rows by (rewrite H; now destruct older).
  rewrite H. destruct (last_n_snoc 8 older e) as (rows & ->); [lia |].
  exists (map event_line rows). now rewrite map_app.
Qed.

(** X17.  The newest event is never cut off: whenever the log is not
    empty, the last row of the table of recent events is the last event
    of the log, shown with its time of day and its message. *)
Theorem newest_event_is_last_row (w : BuildWatchDog) (info : BuildInfo)
    (older : list BuildEvent) (e : BuildEvent) :
  events w = (older ++ [e])%list ->
  exists rows,
    event_table (create_display w info)
    = (rows ++ [EventRow (strftime_HMS (timestamp e)) (message e)])%list.
Proof. apply event_table_snoc. Qed.

Lemma newest_event_is_last_row_witness :
  exists rows,
    event_table
      (create_display
         (mkBuildWatchDog "demo:1" 10 "both"
            [mkBuildEvent 60 "IN_PROGRESS" "Started monitoring - IN_PROGRESS";
             mkBuildEvent 3725 "ERROR" "Failed to fetch build info"]
            (Some "ERROR") "demo")
         empty_dict)
    = (rows ++ [EventRow "01:02:05" "Failed to fetch build info"])%list.
Proof.
  apply (newest_event_is_last_row _ empty_dict
           [mkBuildEvent 60 "IN_PROGRESS" "Started monitoring - IN_PROGRESS"]
           (mkBuildEvent 3725 "ERROR" "Failed to fetch build info")).
  reflexivity.
Defined.





(** X19.  After a failed fetch of the loop the dashboard is drawn from
    an empty dict: it shows the status "UNKNOWN" with the white circle
    in bold red and the placeholder instead of the phases, while the
    last row of its event table is the failure just logged. *)
Theorem failed_poll_blanks_dashboard (m : machine) (now : datetime)
    (info : option BuildInfo) :
  at_call m = PollFetch ->
  info_truthy info = false ->
  exists m1 p rows,
    step m (Fetched now info) = Some m1 /\
    live m1 = (live m ++ [p])%list /\
    status_shown p = "UNKNOWN" /\
    status_icon p = WhiteCircle /\
    status_style_shown p = "bold red" /\
    timeline p = [NoPhaseInformation] /\
    event_table p
    = (rows ++ [EventRow (strftime_HMS now) "Failed to fetch build info"])%list.
Proof.
  intros Hat Hbad. apply usable_none in Hbad.
  set (logged := add_event now "ERROR" "Failed to fetch build info" (self m)).
  destruct (event_table_snoc (fst logged) empty_dict (events (self m))
              (mkBuildEvent now "ERROR" "Failed to fetch build info"))
    as (rows & Hrows); [apply add_event_events |].
  exists (after_poll_fetch m now info), (create_display (fst logged) empty_dict), rows.
  split; [now apply step_poll_fetch |].
  rewrite (after_poll_fetch_failed _ _ _ Hbad). cbn [live].
  repeat split. exact Hrows.
Qed.

Lemma failed_poll_blanks_dashboard_witness :
  exists m1 p,
    step (after_initial_fetch (main "demo:1" 10 "both") 60
            (Some (mkBuildInfo (Some "IN_PROGRESS") None None
                     (Some [mkPhase (Some "BUILD") (Some "IN_PROGRESS")]) [])))
         (Fetched 70 None) = Some m1 /\
    last (live m1) p = p /\
    timeline p = [NoPhaseInformation].
Proof.
  destruct (failed_poll_blanks_dashboard
              (after_initial_fetch (main "demo:1" 10 "both") 60
                 (Some (mkBuildInfo (Some "IN_PROGRESS") None None
                          (Some [mkPhase (Some "BUILD") (Some "IN_PROGRESS")]) [])))
              70 None eq_refl eq_refl)
    as (m1 & p & rows & Hstep & Hlive & _ & _ & _ & Htl & _).
  exists m1, p. split; [exact Hstep |]. split; [| exact Htl].
  rewrite Hlive. apply last_last.
Defined.

Lemma status_emoji_white (s : string) :
  status_emoji s = WhiteCircle <-> ~ In s known_statuses.
Proof.
  unfold status_emoji, known_statuses.
  string_cases;
    try (split; [discriminate | intros H; exfalso; apply H; simpl; tauto]).
  split; [| reflexivity].
  intros _ Hin. simpl in Hin. intuition congruence.
Qed.

Lemma overall_style_cases (s : string) :
  (overall_style s = "bold green" <-> s = "SUCCEEDED") /\
  (overall_style s = "bold yellow" <-> s = "IN_PROGRESS") /\
  (overall_style s = "bold red" <-> s <> "SUCCEEDED" /\ s <> "IN_PROGRESS").
Proof.
  unfold overall_style. string_cases; repeat split;
    try discriminate; try congruence; try tauto;
    intros (H1 & H2); congruence.
Qed.

(** X20.  The status line shows the build status, or "UNKNOWN" when
    the build has none.  The icon is the white circle exactly for a
    status outside the six known ones; the text is bold green only for
    "SUCCEEDED", bold yellow only for "IN_PROGRESS" and bold red for
    everything else, so an unknown status is drawn in the colour of a
    failure. *)
Theorem status_line_of_dashboard (w : BuildWatchDog) (info : BuildInfo) :
  status_shown (create_display w info)
  = get_default (buildStatus info) "UNKNOWN" /\
  (status_icon (create_display w info) = WhiteCircle <->
   ~ In (status_shown (create_display w info))
        ["IN_PROGRESS"; "SUCCEEDED"; "FAILED"; "STOPPED"; "FAULT"; "TIMED_OUT"]) /\
  (status_style_shown (create_display w info) = "bold green" <->
   status_shown (create_display w info) = "SUCCEEDED") /\
  (status_style_shown (create_display w info) = "bold yellow" <->
   status_shown (create_display w info) = "IN_PROGRESS") /\
  (status_style_shown (create_display w info) = "bold red" <->
   status_shown (create_display w info) <> "SUCCEEDED" /\
   status_shown (create_display w info) <> "IN_PROGRESS") /\
  (buildStatus info = None ->
   status_icon (create_display w info) = WhiteCircle /\
   status_style_shown (create_display w info) = "bold red").
Proof.
  unfold create_display.
  cbn [status_shown status_icon status_style_shown].
  split; [reflexivity |].
  split; [apply status_emoji_white |].
  destruct (overall_style_cases (get_default (buildStatus info) "UNKNOWN"))
    as (Hg & Hy & Hr).
  split; [exact Hg |]. split; [exact Hy |]. split; [exact Hr |].
  intros Hnone. rewrite Hnone. split; reflexivity.
Qed.

Lemma status_line_of_dashboard_witness :
  status_icon (create_display (init "demo:1" 10 "both") empty_dict) = WhiteCircle /\
  status_style_shown (create_display (init "demo:1" 10 "both") empty_dict)
  = "bold red".
Proof.
  destruct (status_line_of_dashboard (init "demo:1" 10 "both") empty_dict)
    as (_ & _ & _ & _ & _ & H).
  apply H. reflexivity.
Defined.

Lemma phase_look_cases (s : string) :
  fst (fst (phase_look s)) = snd (phase_look s) /\
  (snd (fst (phase_look s)) = HollowCircle <-> ~ In s known_statuses) /\
  (snd (phase_look s) = "dim" <-> ~ In s known_statuses).
Proof.
  unfold phase_look, known_statuses.
  string_cases; cbn [orb fst snd];
    try (repeat split; try discriminate; try reflexivity;
         intros H; exfalso; apply H; simpl; tauto).
  repeat split; intros _ Hin; simpl in Hin; intuition congruence.
Qed.

Lemma resolve_never_empty (name overall : string) (st : option string) :
  resolve_phase_status name st overall <> "".
Proof.
  unfold resolve_phase_status. destruct st as [s |].
  - destruct (String.eqb_spec s ""); simpl; [| assumption].
    destruct (_ && _); discriminate.
  - destruct (_ && _); discriminate.
Qed.

(** X21.  In every phase row the icon has the colour of the status
    text, the status text is never empty, and the dim hollow circle is
    used exactly for a status outside the six known ones, such as the
    "PENDING" the dashboard fills in itself. *)
Theorem phase_row_look (overall : string) (phase : Phase) :
  exists style icon shown,
    phase_row overall phase
    = PhaseRow style icon (get_default (phaseType phase) "Unknown") shown style /\
    shown <> "" /\
    (icon = HollowCircle <->
     ~ In shown ["IN_PROGRESS"; "SUCCEEDED"; "FAILED"; "STOPPED"; "FAULT";
                 "TIMED_OUT"]) /\
    (style = "dim" <->
     ~ In shown ["IN_PROGRESS"; "SUCCEEDED"; "FAILED"; "STOPPED"; "FAULT";
                 "TIMED_OUT"]).
Proof.
  unfold phase_row.
  set (shown := resolve_phase_status _ _ _).
  destruct (phase_look_cases shown) as (Hsame & Hicon & Hstyle).
  destruct (phase_look shown) as [[c i] y]. cbn [fst snd] in *. subst c.
  exists y, i, shown. split; [reflexivity |].
  split; [apply resolve_never_empty |]. now split.
Qed.

Lemma phase_row_name (overall : string) (phase : Phase) :
  row_name (phase_row overall phase)
  = Some (get_default (phaseType phase) "Unknown").
Proof.
  unfold phase_row. now destruct (phase_look _) as [[c i] y].
Qed.

(** X22.  The phase table is never empty.  A build without phases
    (missing key or empty list) gets the one placeholder row; otherwise
    there is exactly one row per phase, in the order of the build, each
    under the phase's type, or under "Unknown" when the phase has none. *)
Theorem timeline_rows_by_phases (w : BuildWatchDog) (info : BuildInfo) :
  timeline (create_display w info) <> [] /\
  (get_default (phases info) [] = [] ->
   timeline (create_display w info) = [NoPhaseInformation]) /\
  (get_default (phases info) [] <> [] ->
   List.length (timeline (create_display w info))
   = List.length (get_default (phases info) []) /\
   map row_name (timeline (create_display w info))
   = map (fun p => Some (get_default (phaseType p) "Unknown"))
         (get_default (phases info) [])).
Proof.
  unfold create_display. cbn [timeline].
  destruct (get_default (phases info) []) as [| p ps].
  - split; [discriminate |]. split; [reflexivity |].
    intros Hne. contradiction.
  - split; [discriminate |]. split; [discriminate |].
    intros _. split; [now rewrite length_map |].
    rewrite map_map. apply map_ext. intros q. apply phase_row_name.
Qed.

Lemma timeline_rows_by_phases_witness :
  map row_name
    (timeline (create_display (init "demo:1" 10 "both")
                 (mkBuildInfo (Some "IN_PROGRESS") None None
                    (Some [mkPhase (Some "SUBMITTED") (Some "SUCCEEDED");
                           mkPhase None None]) [])))
  = [Some "SUBMITTED"; Some "Unknown"].
Proof.
  destruct (timeline_rows_by_phases (init "demo:1" 10 "both")
              (mkBuildInfo (Some "IN_PROGRESS") None None
                 (Some [mkPhase (Some "SUBMITTED") (Some "SUCCEEDED");
                        mkPhase None None]) []))
    as (_ & _ & H).
  destruct H as (_ & H); [discriminate | exact H].
Defined.

Lemma take_prefix (n : nat) (s : string) :
  String.prefix (Py.take n s) s = true.
Proof.
  unfold Py.take. revert s. induction n as [| n IH]; intros s.
  - destruct s; reflexivity.
  - destruct s as [| c s]; [reflexivity |]. simpl.
    destruct (ascii_dec c c); [apply IH | contradiction].
Qed.

Lemma take_length (n : nat) (s : string) :
  String.length (Py.take n s) = Nat.min n (String.length s).
Proof.
  unfold Py.take. revert s. induction n as [| n IH]; intros s.
  - destruct s; reflexivity.
  - destruct s as [| c s]; [reflexivity |]. simpl. now rewrite IH.
Qed.

(** X23.  The header shows a beginning of the build id, of at most 20
    characters (the whole id when it is no longer than that), always
    followed by three dots, also after an id that was not cut. *)
Theorem header_build_id_truncated (w : BuildWatchDog) (info : BuildInfo) :
  exists shown,
    nth_error (header_text (create_display w info)) 2
    = Some (shown ++ "...", "dim") /\
    String.prefix shown (build_id w) = true /\
    String.length shown = Nat.min 20 (String.length (build_id w)) /\
    ((String.length (build_id w) <= 20)%nat -> shown = build_id w).
Proof.
  exists (Py.take 20 (build_id w)).
  split; [reflexivity |]. split; [apply take_prefix |].
  split; [apply take_length |].
  intros Hlen. unfold Py.take.
  generalize dependent (build_id w). generalize 20%nat.
  induction n as [| n IH]; intros s Hlen.
  - destruct s; [reflexivity | simpl in Hlen; lia].
  - destruct s as [| c s]; [reflexivity |]. simpl. f_equal.
    apply IH. simpl in Hlen. lia.
Qed.

Lemma header_build_id_truncated_witness :
  nth_error (header_text (create_display (init "demo:1" 10 "both") empty_dict)) 2
  = Some ("demo:1...", "dim").
Proof.
  destruct (header_build_id_truncated (init "demo:1" 10 "both") empty_dict)
    as (shown & Hnth & _ & _ & Hshort).
  rewrite Hnth, Hshort; [reflexivity | simpl; lia].
Defined.
